(** * expense-tracker: the expense store, its persistence and its commands

    A shallow embedding of [main.go].  The store, the expenses and the
    flag sets are records; Go's [int] is a [Z] kept in the 64-bit signed
    range with the wrap-around of [++] written out; [float64] is Rocq's
    primitive binary64 [float]; a Go [string] is a [string] of bytes; the
    budgets map is an optional [gmap] ([None] is Go's nil map).  The data
    file, the host clock and the outcome of the file-system calls are
    explicit: a command is a function of an environment and a disk. *)

From Stdlib Require Import ZArith Floats String Ascii List Bool Lia.
From Stdlib Require Import Sorting.Sorted Sorting.Permutation.
From stdpp Require Import base option list gmap strings pretty.
Import ListNotations.

Local Open Scope string_scope.
Local Open Scope Z_scope.

(** ** Machine integers *)

Module Int.
Definition min_int : Z := - 2 ^ 63.
Definition max_int : Z := 2 ^ 63 - 1.

(** The value an [int] holds after an arithmetic result [z]. *)
Definition wrap (z : Z) : Z := (z + 2 ^ 63) mod 2 ^ 64 - 2 ^ 63.

Definition in_range (z : Z) : Prop := min_int <= z <= max_int.

(** [x++] *)
Definition incr (z : Z) : Z := wrap (z + 1).
End Int.

(** ** Strings: the functions of package [strings] the program calls *)

Module Strings.
(** White space as [strings.TrimSpace] sees it on ASCII text:
    tab, line feed, vertical tab, form feed, carriage return, space. *)
Definition isSpace (c : ascii) : bool :=
  let n := N_of_ascii c in
  ((9 <=? n) && (n <=? 13) || (n =? 32))%N.

Fixpoint trimLeft (s : string) : string :=
  match s with
  | String c r => if isSpace c then trimLeft r else s
  | EmptyString => EmptyString
  end.

(** The white space at the end goes too. *)
Fixpoint trimRight (s : string) : string :=
  match s with
  | String c r =>
      match trimRight r with
      | EmptyString => if isSpace c then EmptyString else String c EmptyString
      | r' => String c r'
      end
  | EmptyString => EmptyString
  end.

Definition TrimSpace (s : string) : string := trimRight (trimLeft s).

(** Simple case folding of the letters A-Z. *)
Definition lower (c : ascii) : ascii :=
  let n := N_of_ascii c in
  if ((65 <=? n) && (n <=? 90))%N then ascii_of_N (n + 32) else c.

Fixpoint EqualFold (s t : string) : bool :=
  match s, t with
  | EmptyString, EmptyString => true
  | String a s', String b t' => Ascii.eqb (lower a) (lower b) && EqualFold s' t'
  | _, _ => false
  end.

(** [s < t] on Go strings: byte-wise lexicographic. *)
Definition lt (s t : string) : bool :=
  match String.compare s t with Lt => true | _ => false end.
End Strings.

(** ** Numbers as text: [strconv.Itoa] and the [%0Nd] verb *)

Module Fmt.
(** [strconv.Itoa] *)
Definition Itoa (z : Z) : string := pretty z.

Fixpoint zeros (n : nat) : string :=
  match n with O => "" | S k => String "0" (zeros k) end.

(** [fmt.Sprintf("%0wd", z)]: zero padding up to width [w], the sign
    first and counted in the width. *)
Definition pad0 (w : nat) (z : Z) : string :=
  let digits := pretty (Z.abs_N z) in
  if z <? 0
  then "-" +:+ zeros (w - 1 - String.length digits) +:+ digits
  else zeros (w - String.length digits) +:+ digits.
End Fmt.

(** ** Calendar dates: [time.Parse] with the layout [2006-01-02] *)

Module Date.
Definition isDigit (c : ascii) : bool :=
  let n := N_of_ascii c in ((48 <=? n) && (n <=? 57))%N.

Definition digit (c : ascii) : Z := Z.of_N (N_of_ascii c) - 48.

Definition isLeap (year : Z) : bool :=
  (year mod 4 =? 0) && (negb (year mod 100 =? 0) || (year mod 400 =? 0)).

Definition daysIn (month year : Z) : Z :=
  if month =? 2 then (if isLeap year then 29 else 28)
  else if (month =? 4) || (month =? 6) || (month =? 9) || (month =? 11) then 30
  else 31.

Record t := { year : Z; month : Z; day : Z }.

(** [time.Parse(dateLayout, s)]: four digits, a dash, two digits, a
    dash, two digits and nothing more; the month within 1..12 and the
    day within the month. *)
Definition parse (s : string) : option t :=
  match s with
  | String y1 (String y2 (String y3 (String y4 (String "-"
    (String m1 (String m2 (String "-"
    (String d1 (String d2 EmptyString))))))))) =>
      if forallb isDigit [y1; y2; y3; y4; m1; m2; d1; d2] then
        let y := digit y1 * 1000 + digit y2 * 100 + digit y3 * 10 + digit y4 in
        let m := digit m1 * 10 + digit m2 in
        let d := digit d1 * 10 + digit d2 in
        if (m <=? 0) || (12 <? m) then None
        else if (d <? 1) || (daysIn m y <? d) then None
        else Some {| year := y; month := m; day := d |}
      else None
  | _ => None
  end.

(** [t.Format(dateLayout)] *)
Definition format (d : t) : string :=
  Fmt.pad0 4 (year d) +:+ "-" +:+ Fmt.pad0 2 (month d) +:+ "-" +:+ Fmt.pad0 2 (day d).

(** [t.Format(monthKeyLayout)] *)
Definition formatMonth (d : t) : string :=
  Fmt.pad0 4 (year d) +:+ "-" +:+ Fmt.pad0 2 (month d).
End Date.

(** [fmt.Sprintf("%.2f", f)]: the exact binary value rounded to two
    decimals, ties to even. *)
Module Fixed2.
Definition roundHalfEven (n d : Z) : Z :=
  let q := n / d in
  let r := n mod d in
  if (d <? 2 * r) || ((2 * r =? d) && Z.odd q) then q + 1 else q.

Definition Sprintf (f : float) : string :=
  match Prim2SF f with
  | S754_nan => "NaN"
  | S754_infinity s => if s then "-Inf" else "+Inf"
  | S754_zero s => (if s then "-" else "") +:+ "0.00"
  | S754_finite s m e =>
      let n := Z.pos m * 100 in
      let q := if 0 <=? e then n * 2 ^ e else roundHalfEven n (2 ^ (- e)) in
      (if s then "-" else "") +:+ Fmt.Itoa (q / 100) +:+ "." +:+ Fmt.pad0 2 (q mod 100)
  end.
End Fixed2.

(** ** Host clock readings *)

Module Time.
(** A [time.Time]: the instant and the calendar date it shows in the
    zone it carries. *)
Record t := { nanos : Z; civil : Date.t }.

Definition Year (x : t) : Z := Date.year (civil x).
Definition Month (x : t) : Z := Date.month (civil x).
(** [x.Format(dateLayout)] *)
Definition Format (x : t) : string := Date.format (civil x).

(** The zero [time.Time]: January 1 of year 1, 00:00 UTC. *)
Definition zero : t :=
  {| nanos := -62135596800000000000; civil := {| Date.year := 1; Date.month := 1; Date.day := 1 |} |}.
End Time.

(** ** Data structures *)

Record Expense := {
  ID : Z;
  Date : string;          (* YYYY-MM-DD *)
  Description : string;
  Amount : float;
  Category : string;
  CreatedAt : Time.t;
  UpdatedAt : Time.t
}.

Record Store := {
  NextID : Z;
  Expenses : list Expense;
  Budgets : option (gmap string float)   (* key: YYYY-MM; [None] is the nil map *)
}.

Definition defaultCat : string := "General".

Definition set_Description (v : string) (e : Expense) : Expense :=
  {| ID := ID e; Date := Date e; Description := v; Amount := Amount e;
     Category := Category e; CreatedAt := CreatedAt e; UpdatedAt := UpdatedAt e |}.
Definition set_Amount (v : float) (e : Expense) : Expense :=
  {| ID := ID e; Date := Date e; Description := Description e; Amount := v;
     Category := Category e; CreatedAt := CreatedAt e; UpdatedAt := UpdatedAt e |}.
Definition set_Date (v : string) (e : Expense) : Expense :=
  {| ID := ID e; Date := v; Description := Description e; Amount := Amount e;
     Category := Category e; CreatedAt := CreatedAt e; UpdatedAt := UpdatedAt e |}.
Definition set_Category (v : string) (e : Expense) : Expense :=
  {| ID := ID e; Date := Date e; Description := Description e; Amount := Amount e;
     Category := v; CreatedAt := CreatedAt e; UpdatedAt := UpdatedAt e |}.
Definition set_UpdatedAt (v : Time.t) (e : Expense) : Expense :=
  {| ID := ID e; Date := Date e; Description := Description e; Amount := Amount e;
     Category := Category e; CreatedAt := CreatedAt e; UpdatedAt := v |}.

Definition set_NextID (v : Z) (st : Store) : Store :=
  {| NextID := v; Expenses := Expenses st; Budgets := Budgets st |}.
Definition set_Expenses (v : list Expense) (st : Store) : Store :=
  {| NextID := NextID st; Expenses := v; Budgets := Budgets st |}.
Definition set_Budgets (v : option (gmap string float)) (st : Store) : Store :=
  {| NextID := NextID st; Expenses := Expenses st; Budgets := v |}.

(** [budget, ok := st.Budgets[mk]]: reading a nil map finds nothing. *)
Definition budgetOf (st : Store) (mk : string) : option float :=
  m ← Budgets st; m !! mk.

(** ** Errors

    The program returns plain [error] values; the constructors name them
    by cause, after the taxonomy of the specification. *)

Inductive error :=
| ValidationError (msg : string)   (* a flag is missing or out of range *)
| NotFoundError (id : Z)           (* no expense has the ID *)
| HomeDirError                     (* os.UserHomeDir failed *)
| OpenError                        (* the data file exists and cannot be opened *)
| CorruptStoreError                (* the data file does not decode as a Store *)
| PersistenceError                 (* the store could not be encoded or written *)
| ExportIOError                    (* the CSV file could not be created *)
| NilMapPanic.                     (* assignment to an entry of a nil map *)

(** ** The data file as encoding/json reads it

    A value of the file is kept by what the decoder finds for each field
    of the struct it fills: nothing (the key is absent, or bound to
    null), a value that does not decode at the field's type, or a value
    that does.  Text is taken to be well-formed UTF-8, which the encoder
    writes and the decoder reads back byte for byte. *)

Inductive member (A : Type) : Type :=
| Omitted
| Ill
| Given (a : A).
Arguments Omitted {A}.
Arguments Ill {A}.
Arguments Given {A} a.

Record ExpenseDoc := {
  doc_id : member Z;
  doc_date : member string;
  doc_description : member string;
  doc_amount : member float;
  doc_category : member string;
  doc_created_at : member Time.t;
  doc_updated_at : member Time.t
}.

Record StoreDoc := {
  doc_next_id : member Z;
  doc_expenses : member (list ExpenseDoc);
  doc_budgets : member (gmap string float)
}.

Module Json.
(** A field the decoder leaves alone keeps the zero value of its type. *)
Definition field {A : Type} (zero : A) (m : member A) : option A :=
  match m with
  | Omitted => Some zero
  | Ill => None
  | Given a => Some a
  end.

(** A number decodes into an [int] when it lies in its range. *)
Definition int (m : member Z) : option Z :=
  z ← field 0 m;
  if (Int.min_int <=? z) && (z <=? Int.max_int) then Some z else None.

(** JSON has no NaN and no infinity: a number too large for a float64
    is a decoding error, and the encoder refuses the three values. *)
Definition float64 (m : member float) : option float :=
  f ← field 0%float m;
  if PrimFloat.is_finite f then Some f else None.

Definition decodeExpense (d : ExpenseDoc) : option Expense :=
  id ← int (doc_id d);
  date ← field "" (doc_date d);
  desc ← field "" (doc_description d);
  amount ← float64 (doc_amount d);
  cat ← field "" (doc_category d);
  created ← field Time.zero (doc_created_at d);
  updated ← field Time.zero (doc_updated_at d);
  Some {| ID := id; Date := date; Description := desc; Amount := amount;
          Category := cat; CreatedAt := created; UpdatedAt := updated |}.

Definition finiteMap (m : gmap string float) : option (gmap string float) :=
  if decide (map_Forall (fun _ v => PrimFloat.is_finite v = true) m) then Some m else None.

(** [json.NewDecoder(f).Decode(&st)] into a zero [Store]. *)
Definition decodeStore (d : StoreDoc) : option Store :=
  next ← int (doc_next_id d);
  exps ← match doc_expenses d with
         | Omitted => Some []
         | Ill => None
         | Given l => mapM decodeExpense l
         end;
  buds ← match doc_budgets d with
         | Omitted => Some None
         | Ill => None
         | Given m => Some <$> finiteMap m
         end;
  Some {| NextID := next; Expenses := exps; Budgets := buds |}.

Definition encodeFloat (f : float) : option float :=
  if PrimFloat.is_finite f then Some f else None.

Definition encodeExpense (e : Expense) : option ExpenseDoc :=
  amount ← encodeFloat (Amount e);
  Some {| doc_id := Given (ID e); doc_date := Given (Date e);
          doc_description := Given (Description e); doc_amount := Given amount;
          doc_category := Given (Category e); doc_created_at := Given (CreatedAt e);
          doc_updated_at := Given (UpdatedAt e) |}.

(** [enc.Encode(st)]: a nil map is written as null. *)
Definition encodeStore (st : Store) : option StoreDoc :=
  exps ← mapM encodeExpense (Expenses st);
  buds ← match Budgets st with
         | None => Some Omitted
         | Some m => Given <$> finiteMap m
         end;
  Some {| doc_next_id := Given (NextID st); doc_expenses := Given exps; doc_budgets := buds |}.
End Json.

(** ** The environment of one invocation and the disk between them *)

Inductive FileState :=
| NoFile                    (* os.ErrNotExist *)
| NoAccess                  (* any other failure of os.Open *)
| Malformed                 (* not JSON, or a JSON value that is no object *)
| Document (d : StoreDoc).  (* an object; null reads as the object without members *)

Record Env := {
  home_ok : bool;             (* os.UserHomeDir succeeds *)
  write_ok : bool;            (* MkdirAll, Create, the write, Close and Rename succeed *)
  create_ok : string -> bool; (* os.Create succeeds on an export path *)
  clock : nat -> Time.t       (* the successive readings of time.Now *)
}.

Record Disk := {
  data_file : FileState;
  csv_files : gmap string (list (list string))
}.

Definition set_data_file (f : FileState) (d : Disk) : Disk :=
  {| data_file := f; csv_files := csv_files d |}.

(** ** Load & save *)

Definition loadStore (env : Env) (d : Disk) : error + Store :=
  if negb (home_ok env) then inl HomeDirError else
  match data_file d with
  | NoFile => inr {| NextID := 1; Expenses := []; Budgets := Some ∅ |}
  | NoAccess => inl OpenError
  | Malformed => inl CorruptStoreError
  | Document doc =>
      match Json.decodeStore doc with
      | None => inl CorruptStoreError
      | Some st =>
          let st := if Budgets st is None then set_Budgets (Some ∅) st else st in
          let st := if NextID st =? 0 then set_NextID 1 st else st in
          inr st
      end
  end.

(** The temporary file is renamed over the data file only after the
    whole store was written: on any failure the data file is as before. *)
Definition save (env : Env) (st : Store) (d : Disk) : error + Disk :=
  if negb (home_ok env) then inl HomeDirError else
  if negb (write_ok env) then inl PersistenceError else
  match Json.encodeStore st with
  | None => inl PersistenceError
  | Some doc => inr (set_data_file (Document doc) d)
  end.

(** ** Helpers *)

(** What a command writes on standard output, one entry for each
    [Printf] or [Println], with the arguments it formats. *)
Inductive output :=
| OutAdded (id : Z)
| OutUpdated
| OutDeleted
| OutWarning (mk : string) (budget total : float)
| OutTableHead
| OutTableRule
| OutTableRow (id : Z) (date desc cat : string) (amount : float)
| OutTotal (total : float)
| OutTotalCat (category : string) (total : float)
| OutMonthTotal (monName : string) (total : float)
| OutMonthTotalCat (monName category : string) (total : float)
| OutBudgetSet (mk : string) (amount : float)
| OutNoBudget (mk : string)
| OutBudget (mk : string) (budget : float)
| OutSpent (spent remaining : float)
| OutExported (rows : Z) (path : string).

(** The clock is read at most a few times in a command; [k] counts the
    readings made so far. *)
Definition parseDateOrToday (env : Env) (k : nat) (s : string) : (error + string) * nat :=
  if String.eqb (Strings.TrimSpace s) "" then (inr (Time.Format (clock env k)), S k)
  else match Date.parse s with
       | None => (inl (ValidationError "invalid date, expected YYYY-MM-DD"), k)
       | Some _ => (inr s, k)
       end.

Definition monthKeyFromDate (date : string) : option string :=
  Date.formatMonth <$> Date.parse date.

Definition sumForMonth (st : Store) (key : string) (category : string) : float :=
  fold_left
    (fun total e =>
       match monthKeyFromDate (Date e) with
       | None => total
       | Some mk =>
           if String.eqb mk key
              && (String.eqb category "" || Strings.EqualFold category (Category e))
           then PrimFloat.add total (Amount e)
           else total
       end)
    (Expenses st) 0%float.

(** The index of the first expense with the ID; the pointer the source
    returns with it is the slot of the slice at that index. *)
Fixpoint findIndex (id : Z) (l : list Expense) (i : nat) : option nat :=
  match l with
  | [] => None
  | e :: r => if ID e =? id then Some i else findIndex id r (S i)
  end.

Definition findByID (st : Store) (id : Z) : option nat :=
  findIndex id (Expenses st) 0.

(** An assignment through the pointer [findByID] returned. *)
Definition assign (i : nat) (g : Expense -> Expense) (st : Store) : Store :=
  set_Expenses (alter g i (Expenses st)) st.

Definition truncate (limit : nat) (s : string) : string :=
  if (limit <? String.length s)%nat then String.substring 0 (limit - 3) s +:+ "..." else s.

Definition printTable (expenses : list Expense) : list output :=
  OutTableHead :: OutTableRule ::
  map (fun e => OutTableRow (ID e) (Date e) (truncate 32 (Description e))
                            (truncate 14 (Category e)) (Amount e))
      expenses.

Definition warnIfBudgetExceeded (st : Store) (date : string) (category : string) : list output :=
  match monthKeyFromDate date with
  | None => []
  | Some mk =>
      match budgetOf st mk with
      | None => []
      | Some budget =>
          if PrimFloat.leb budget 0 then []
          else
            let total := sumForMonth st mk category in
            if PrimFloat.ltb budget total then [OutWarning mk budget total] else []
      end
  end.

(** ** Commands *)

(** What a command leaves behind: the lines printed, the error returned
    to [main], the store it held in memory when it returned (if it had
    loaded one) and the disk. *)
Record Run := {
  printed : list output;
  err : option error;
  mem : option Store;
  disk : Disk
}.

Definition fail (e : error) (m : option Store) (d : Disk) : Run :=
  {| printed := []; err := Some e; mem := m; disk := d |}.

(** A flag is [None] when the command line does not give it. *)
Record AddFlags := {
  add_description : option string;
  add_amount : option float;
  add_date : option string;
  add_category : option string
}.

Definition cmdAdd (env : Env) (f : AddFlags) (d : Disk) : Run :=
  let desc := default "" (add_description f) in
  let amount := default 0%float (add_amount f) in
  let date := default "" (add_date f) in
  let cat := default defaultCat (add_category f) in
  if String.eqb (Strings.TrimSpace desc) "" then
    fail (ValidationError "--description is required") None d
  else if PrimFloat.leb amount 0 then
    fail (ValidationError "--amount must be > 0") None d
  else
    match parseDateOrToday env 0 date with
    | (inl e, _) => fail e None d
    | (inr dt, k) =>
        match loadStore env d with
        | inl e => fail e None d
        | inr st =>
            let e := {| ID := NextID st; Date := dt;
                        Description := Strings.TrimSpace desc; Amount := amount;
                        Category := Strings.TrimSpace cat;
                        CreatedAt := clock env k; UpdatedAt := clock env (S k) |} in
            let st := set_Expenses (Expenses st ++ [e]) st in
            let st := set_NextID (Int.incr (NextID st)) st in
            match save env st d with
            | inl er => fail er (Some st) d
            | inr d' =>
                {| printed := OutAdded (ID e) :: warnIfBudgetExceeded st (Date e) "";
                   err := None; mem := Some st; disk := d' |}
            end
        end
    end.

(** [upd_amount] is the [floatFlag]: [Some v] when the flag was set. *)
Record UpdateFlags := {
  upd_id : option Z;
  upd_description : option string;
  upd_amount : option float;
  upd_date : option string;
  upd_category : option string
}.

Definition cmdUpdate (env : Env) (f : UpdateFlags) (d : Disk) : Run :=
  let id := default 0 (upd_id f) in
  let desc := default "" (upd_description f) in
  let date := default "" (upd_date f) in
  let cat := default "" (upd_category f) in
  if id <=? 0 then fail (ValidationError "--id is required") None d
  else
    match loadStore env d with
    | inl e => fail e None d
    | inr st =>
        match findByID st id with
        | None => fail (NotFoundError id) (Some st) d
        | Some i =>
            let st :=
              if negb (String.eqb (Strings.TrimSpace desc) "")
              then assign i (set_Description (Strings.TrimSpace desc)) st
              else st in
            match
              match upd_amount f with
              | Some val =>
                  if PrimFloat.leb val 0
                  then inl (ValidationError "--amount must be a positive number")
                  else inr (assign i (set_Amount val) st)
              | None => inr st
              end
            with
            | inl e => fail e (Some st) d
            | inr st =>
                match
                  if negb (String.eqb (Strings.TrimSpace date) "")
                  then match Date.parse date with
                       | None => inl (ValidationError "invalid --date")
                       | Some _ => inr (assign i (set_Date date) st)
                       end
                  else inr st
                with
                | inl e => fail e (Some st) d
                | inr st =>
                    let st :=
                      if negb (String.eqb (Strings.TrimSpace cat) "")
                      then assign i (set_Category (Strings.TrimSpace cat)) st
                      else st in
                    let st := assign i (set_UpdatedAt (clock env 0)) st in
                    match save env st d with
                    | inl er => fail er (Some st) d
                    | inr d' =>
                        let eDate := from_option Date "" (Expenses st !! i) in
                        {| printed := OutUpdated :: warnIfBudgetExceeded st eDate "";
                           err := None; mem := Some st; disk := d' |}
                    end
                end
            end
        end
    end.

Definition cmdDelete (env : Env) (id : option Z) (d : Disk) : Run :=
  let id := default 0 id in
  if id <=? 0 then fail (ValidationError "--id is required") None d
  else
    match loadStore env d with
    | inl e => fail e None d
    | inr st =>
        match findByID st id with
        | None => fail (NotFoundError id) (Some st) d
        | Some idx =>
            let st := set_Expenses (take idx (Expenses st) ++ drop (S idx) (Expenses st)) st in
            match save env st d with
            | inl er => fail er (Some st) d
            | inr d' => {| printed := [OutDeleted]; err := None; mem := Some st; disk := d' |}
            end
        end
    end.

(** The comparison handed to [sort.Slice]. *)
Definition less (a b : Expense) : bool :=
  Strings.lt (Date a) (Date b) || (String.eqb (Date a) (Date b) && (ID a <? ID b)).

(** [sort.Slice]: the slice reordered so that no element is [less] than
    one before it, here by insertion.  The library promises no more (it
    is not stable); the properties below use no more. *)
Fixpoint insertSorted (x : Expense) (l : list Expense) : list Expense :=
  match l with
  | [] => [x]
  | y :: r => if less y x then y :: insertSorted x r else x :: l
  end.

Definition sortSlice (l : list Expense) : list Expense :=
  fold_right insertSorted [] l.

(** The body of the loop of [filterExpenses]: whether [e] is appended. *)
Definition keeps (month year : Z) (category : string) (e : Expense) : bool :=
  if negb (String.eqb category "") && negb (Strings.EqualFold category (Category e))
  then false
  else if (0 <? month) || (0 <? year) then
    match Date.parse (Date e) with
    | None => false
    | Some t =>
        if (0 <? year) && negb (Date.year t =? year) then false
        else if (0 <? month) && negb (Date.month t =? month) then false
        else true
    end
  else true.

Definition filterExpenses (st : Store) (month year : Z) (category : string) : list Expense :=
  sortSlice (List.filter (keeps month year category) (Expenses st)).

Record ListFlags := {
  list_category : option string;
  list_month : option Z;
  list_year : option Z
}.

(** The month and year a listing filters on: the current year stands
    in when a month comes without a year. *)
Definition cmdList (env : Env) (f : ListFlags) (d : Disk) : Run :=
  let category := default "" (list_category f) in
  let month := default 0 (list_month f) in
  let year := default 0 (list_year f) in
  match loadStore env d with
  | inl e => fail e None d
  | inr st =>
      if negb (month =? 0) && ((month <? 1) || (12 <? month))
      then fail (ValidationError "--month must be 1-12") (Some st) d
      else
        let year := if (0 <? month) && (year =? 0) then Time.Year (clock env 0) else year in
        let items := filterExpenses st month year (Strings.TrimSpace category) in
        {| printed := printTable items; err := None; mem := Some st; disk := d |}
  end.

Record SummaryFlags := {
  sum_month : option Z;
  sum_category : option string
}.

(** [time.Month(m).String()] for a month within 1..12. *)
Definition monthName (m : Z) : string :=
  nth (Z.to_nat (m - 1))
      ["January"; "February"; "March"; "April"; "May"; "June"; "July";
       "August"; "September"; "October"; "November"; "December"] "".

Definition cmdSummary (env : Env) (f : SummaryFlags) (d : Disk) : Run :=
  let month := default 0 (sum_month f) in
  let category := default "" (sum_category f) in
  match loadStore env d with
  | inl e => fail e None d
  | inr st =>
      if month =? 0 then
        let total :=
          fold_left
            (fun total e =>
               if String.eqb category "" || Strings.EqualFold category (Category e)
               then PrimFloat.add total (Amount e) else total)
            (Expenses st) 0%float in
        {| printed := [if String.eqb category "" then OutTotal total
                       else OutTotalCat category total];
           err := None; mem := Some st; disk := d |}
      else if (month <? 1) || (12 <? month) then
        fail (ValidationError "--month must be 1-12") (Some st) d
      else
        let year := Time.Year (clock env 0) in
        let mk := Fmt.pad0 4 year +:+ "-" +:+ Fmt.pad0 2 month in
        let total := sumForMonth st mk (Strings.TrimSpace category) in
        let monName := monthName month in
        {| printed := [if String.eqb (Strings.TrimSpace category) ""
                       then OutMonthTotal monName total
                       else OutMonthTotalCat monName category total];
           err := None; mem := Some st; disk := d |}
  end.

Record BudgetFlags := {
  bud_set : option float;
  bud_month : option Z;
  bud_year : option Z
}.

Definition cmdBudget (env : Env) (f : BudgetFlags) (d : Disk) : Run :=
  let set := default (-1)%float (bud_set f) in
  let month := default 0 (bud_month f) in
  let year := default 0 (bud_year f) in
  let '(month, k) := if month =? 0 then (Time.Month (clock env 0), 1%nat) else (month, 0%nat) in
  let year := if year =? 0 then Time.Year (clock env k) else year in
  if (month <? 1) || (12 <? month) then
    fail (ValidationError "--month must be 1-12") None d
  else
    let mk := Fmt.pad0 4 year +:+ "-" +:+ Fmt.pad0 2 month in
    match loadStore env d with
    | inl e => fail e None d
    | inr st =>
        if PrimFloat.leb 0 set then
          match Budgets st with
          | None => fail NilMapPanic (Some st) d
          | Some m =>
              let st := set_Budgets (Some (<[mk := set]> m)) st in
              match save env st d with
              | inl er => fail er (Some st) d
              | inr d' =>
                  {| printed := [OutBudgetSet mk set]; err := None; mem := Some st; disk := d' |}
              end
          end
        else
          match budgetOf st mk with
          | None => {| printed := [OutNoBudget mk]; err := None; mem := Some st; disk := d |}
          | Some budget =>
              if PrimFloat.leb budget 0 then
                {| printed := [OutNoBudget mk]; err := None; mem := Some st; disk := d |}
              else
                let spent := sumForMonth st mk "" in
                {| printed := [OutBudget mk budget; OutSpent spent (PrimFloat.sub budget spent)];
                   err := None; mem := Some st; disk := d |}
          end
    end.

Record ExportFlags := {
  exp_output : option string;
  exp_category : option string;
  exp_month : option Z;
  exp_year : option Z
}.

Definition csvHeader : list string := ["id"; "date"; "description"; "category"; "amount"].

Definition csvRecord (e : Expense) : list string :=
  [Fmt.Itoa (ID e); Date e; Description e; Category e; Fixed2.Sprintf (Amount e)].

Definition cmdExport (env : Env) (f : ExportFlags) (d : Disk) : Run :=
  let out := default "expenses.csv" (exp_output f) in
  let category := default "" (exp_category f) in
  let month := default 0 (exp_month f) in
  let year := default 0 (exp_year f) in
  match loadStore env d with
  | inl e => fail e None d
  | inr st =>
      if negb (month =? 0) && ((month <? 1) || (12 <? month))
      then fail (ValidationError "--month must be 1-12") (Some st) d
      else
        let year := if (0 <? month) && (year =? 0) then Time.Year (clock env 0) else year in
        let items := filterExpenses st month year (Strings.TrimSpace category) in
        if negb (create_ok env out) then fail ExportIOError (Some st) d
        else
          {| printed := [OutExported (Z.of_nat (length items)) out];
             err := None; mem := Some st;
             disk := {| data_file := data_file d;
                        csv_files := <[out := csvHeader :: map csvRecord items]> (csv_files d) |} |}
  end.

(** ** The command line *)

Inductive Command :=
| Add (f : AddFlags)
| Update (f : UpdateFlags)
| Delete (id : option Z)
| List (f : ListFlags)
| Summary (f : SummaryFlags)
| Budget (f : BudgetFlags)
| Export (f : ExportFlags).

(** The [switch] of [main]. *)
Definition dispatch (env : Env) (c : Command) (d : Disk) : Run :=
  match c with
  | Add f => cmdAdd env f d
  | Update f => cmdUpdate env f d
  | Delete id => cmdDelete env id d
  | List f => cmdList env f d
  | Summary f => cmdSummary env f d
  | Budget f => cmdBudget env f d
  | Export f => cmdExport env f d
  end.

(** The disk after a sequence of invocations, each in its environment. *)
Fixpoint runAll (cs : list (Env * Command)) (d : Disk) : Disk :=
  match cs with
  | [] => d
  | (env, c) :: r => runAll r (disk (dispatch env c d))
  end.

(** The disk of a user who has not run the program yet. *)
Definition freshDisk : Disk := {| data_file := NoFile; csv_files := ∅ |}.

(** ** Sample inputs *)

Module Sample.
Definition aug9 : Time.t :=
  {| Time.nanos := 1754730000000000000;
     Time.civil := {| Date.year := 2025; Date.month := 8; Date.day := 9 |} |}.

(** A host whose file system works and whose clock shows 9 August 2025. *)
Definition env : Env :=
  {| home_ok := true; write_ok := true; create_ok := fun _ => true; clock := fun _ => aug9 |}.

Definition lunch : Expense :=
  {| ID := 1; Date := "2025-08-09"; Description := "Lunch"; Amount := 20%float;
     Category := "Food"; CreatedAt := aug9; UpdatedAt := aug9 |}.

Definition store : Store :=
  {| NextID := 2; Expenses := [lunch]; Budgets := Some {[ "2025-08" := 50%float ]} |}.


(** The disk after [store] was saved. *)
Definition disk : Disk :=
  match save env store freshDisk with
  | inr d => d
  | inl _ => freshDisk
  end.

(** [update --id 1 --description Dinner --amount 0] *)
Definition updateDinnerZero : UpdateFlags :=
  {| upd_id := Some 1; upd_description := Some "Dinner"; upd_amount := Some 0%float;
     upd_date := None; upd_category := None |}.

(** [update --id 1] *)
Definition updateNothing : UpdateFlags :=
  {| upd_id := Some 1; upd_description := None; upd_amount := None;
     upd_date := None; upd_category := None |}.

(** [budget --set 50 --month 8 --year 2025] *)
Definition budgetFifty : BudgetFlags :=
  {| bud_set := Some 50%float; bud_month := Some 8; bud_year := Some 2025 |}.

(** [add --description Book --amount 20], on 9 August 2025 *)
Definition addBook : AddFlags :=
  {| add_description := Some "Book"; add_amount := Some 20%float;
     add_date := None; add_category := None |}.




(** [add --description Fuel --amount 40 --date 2025-08-09] *)
Definition addFuel : AddFlags :=
  {| add_description := Some "Fuel"; add_amount := Some 40%float;
     add_date := Some "2025-08-09"; add_category := None |}.

(** A store whose counter is the largest [int]. *)
Definition lastCounter : Store :=
  {| NextID := Int.max_int; Expenses := []; Budgets := Some ∅ |}.

Definition lastCounterDisk : Disk :=
  match save env lastCounter freshDisk with
  | inr d => d
  | inl _ => freshDisk
  end.

End Sample.

(** * Properties *)

(** ** Persistence *)

(** The integers a Go value can hold. *)
Definition typedExpense (e : Expense) : Prop := Int.in_range (ID e).
Definition typedStore (st : Store) : Prop :=
  Int.in_range (NextID st) /\ Forall typedExpense (Expenses st).

(** The numbers JSON can write. *)
Definition finiteStore (st : Store) : Prop :=
  Forall (fun e => PrimFloat.is_finite (Amount e) = true) (Expenses st)
  /\ forall m, Budgets st = Some m -> map_Forall (fun _ v => PrimFloat.is_finite v = true) m.

(** What [loadStore] does to a store it decoded. *)
Definition normalized (raw : Store) : Store :=
  {| NextID := if NextID raw =? 0 then 1 else NextID raw;
     Expenses := Expenses raw;
     Budgets := Some (default ∅ (Budgets raw)) |}.

(** The store the data file holds, as the decoder reads it. *)
Definition stored (d : Disk) : option Store :=
  match data_file d with
  | Document doc => Json.decodeStore doc
  | _ => None
  end.

(** The store a command loads from the disk when the home directory
    resolves. *)
Definition loaded (d : Disk) : option Store :=
  match data_file d with
  | NoFile => Some {| NextID := 1; Expenses := []; Budgets := Some ∅ |}
  | Document doc => normalized <$> Json.decodeStore doc
  | _ => None
  end.

(** The four ways a command changes the store it loaded before it
    saves it: [cmdAdd], [cmdUpdate], [cmdDelete] and [cmdBudget]. *)
Inductive Mutation (st0 : Store) : Store -> Prop :=
| MutAdd e :
    ID e = NextID st0 ->
    Mutation st0 {| NextID := Int.incr (NextID st0); Expenses := Expenses st0 ++ [e];
                    Budgets := Budgets st0 |}
| MutUpdate i g :
    (forall e, ID (g e) = ID e) ->
    Mutation st0 (assign i g st0)
| MutDelete idx e :
    Expenses st0 !! idx = Some e ->
    Mutation st0 (set_Expenses (take idx (Expenses st0) ++ drop (S idx) (Expenses st0)) st0)
| MutBudget m mk v :
    Budgets st0 = Some m -> PrimFloat.leb 0 v = true ->
    Mutation st0 (set_Budgets (Some (<[mk := v]> m)) st0).



(** The warning of the specification: the date has a month-key, a
    budget above zero is set for it, and the amounts of all expenses of
    that month-key, added up in the order of the store whatever their
    category, exceed it. *)
Definition monthTotal (st : Store) (mk : string) : float :=
  fold_left PrimFloat.add
    (map Amount (List.filter (fun e => bool_decide (monthKeyFromDate (Date e) = Some mk))
                             (Expenses st)))
    0%float.

Definition overBudget (st : Store) (date mk : string) (budget total : float) : Prop :=
  monthKeyFromDate date = Some mk
  /\ budgetOf st mk = Some budget
  /\ PrimFloat.ltb 0 budget = true
  /\ total = monthTotal st mk
  /\ PrimFloat.ltb budget total = true.

(** The order of a listing: by date text, then by ID. *)
Definition dateThenID (a b : Expense) : Prop :=
  Strings.lt (Date a) (Date b) = true \/ (Date a = Date b /\ ID a <= ID b).


(** The character of a decimal digit. *)
Definition digitChar (z : Z) : ascii := ascii_of_N (Z.to_N (z + 48)).

(** A date [time.Parse] returns for the layout of dates. *)
Definition validDate (t : Date.t) : Prop :=
  0 <= Date.year t <= 9999
  /\ 1 <= Date.month t <= 12
  /\ 1 <= Date.day t <= Date.daysIn (Date.month t) (Date.year t).

(** A host whose clock shows such dates. *)
Definition validClock (env : Env) : Prop :=
  forall k, validDate (Time.civil (clock env k)).

(** An expense as [cmdAdd] and [cmdUpdate] let it into the data file:
    its amount is above zero, its date parses and its description is
    not empty. *)
Definition soundExpense (e : Expense) : Prop :=
  PrimFloat.ltb 0 (Amount e) = true
  /\ is_Some (Date.parse (Date e))
  /\ Description e <> "".

(** The assignments of [cmdUpdate] (lines 274-292) on the expense found,
    when none of them fails. *)
Definition updated (env : Env) (f : UpdateFlags) (e : Expense) : Expense :=
  {| ID := ID e;
     Date := if String.eqb (Strings.TrimSpace (default "" (upd_date f))) ""
             then Date e else default "" (upd_date f);
     Description := if String.eqb (Strings.TrimSpace (default "" (upd_description f))) ""
                    then Description e
                    else Strings.TrimSpace (default "" (upd_description f));
     Amount := match upd_amount f with Some v => v | None => Amount e end;
     Category := if String.eqb (Strings.TrimSpace (default "" (upd_category f))) ""
                 then Category e
                 else Strings.TrimSpace (default "" (upd_category f));
     CreatedAt := CreatedAt e;
     UpdatedAt := clock env 0 |}.




Ltac in_range := unfold Int.in_range, Int.min_int, Int.max_int in *; simpl in *; lia.

Lemma int_Given z : Int.in_range z -> Json.int (Given z) = Some z.
Proof.
  unfold Int.in_range, Json.int. intros [Hlo Hhi]. simpl.
  apply Z.leb_le in Hlo, Hhi. rewrite Hlo, Hhi. reflexivity.
Qed.

Lemma int_range m z : Json.int m = Some z -> Int.in_range z.
Proof.
  unfold Json.int, Int.in_range. intros H.
  destruct (Json.field 0 m) as [y|]; simpl in H; [|discriminate].
  destruct (Int.min_int <=? y) eqn:Hlo, (y <=? Int.max_int) eqn:Hhi; simpl in H;
    try discriminate.
  injection H as <-. split; apply Z.leb_le; assumption.
Qed.

Lemma float64_finite m f : Json.float64 m = Some f -> PrimFloat.is_finite f = true.
Proof.
  unfold Json.float64. intros H.
  destruct (Json.field 0%float m) as [y|]; simpl in H; [|discriminate].
  destruct (PrimFloat.is_finite y) eqn:Hy; [|discriminate].
  injection H as <-. exact Hy.
Qed.

Lemma finiteMap_Some m m' :
  Json.finiteMap m = Some m' <-> m' = m /\ map_Forall (fun _ v => PrimFloat.is_finite v = true) m.
Proof.
  unfold Json.finiteMap. destruct (decide _) as [H|H]; split.
  - intros [= <-]. auto.
  - intros [-> _]. reflexivity.
  - discriminate.
  - intros [_ ?]. contradiction.
Qed.

Lemma encodeExpense_Some e :
  PrimFloat.is_finite (Amount e) = true ->
  Json.encodeExpense e =
    Some {| doc_id := Given (ID e); doc_date := Given (Date e);
            doc_description := Given (Description e); doc_amount := Given (Amount e);
            doc_category := Given (Category e); doc_created_at := Given (CreatedAt e);
            doc_updated_at := Given (UpdatedAt e) |}.
Proof. intros H. unfold Json.encodeExpense, Json.encodeFloat. rewrite H. reflexivity. Qed.

Lemma encodeExpense_finite e doc :
  Json.encodeExpense e = Some doc -> PrimFloat.is_finite (Amount e) = true.
Proof.
  unfold Json.encodeExpense, Json.encodeFloat.
  destruct (PrimFloat.is_finite (Amount e)); [reflexivity | discriminate].
Qed.

Lemma decode_encodeExpense e doc :
  typedExpense e -> Json.encodeExpense e = Some doc -> Json.decodeExpense doc = Some e.
Proof.
  intros Ht Henc. pose proof (encodeExpense_finite _ _ Henc) as Hfin.
  rewrite (encodeExpense_Some _ Hfin) in Henc. injection Henc as <-.
  unfold Json.decodeExpense. simpl. rewrite (int_Given _ Ht). simpl.
  unfold Json.float64. simpl. rewrite Hfin. simpl. destruct e; reflexivity.
Qed.

Lemma decode_encodeExpenses l docs :
  Forall typedExpense l -> mapM Json.encodeExpense l = Some docs ->
  mapM Json.decodeExpense docs = Some l.
Proof.
  intros Ht Henc. apply mapM_Some in Henc. apply mapM_Some.
  induction Henc as [|e doc l docs He _ IH]; constructor.
  - apply decode_encodeExpense; [|assumption]. inversion Ht; assumption.
  - apply IH. inversion Ht; assumption.
Qed.

Lemma encodeExpenses_total l :
  Forall (fun e => PrimFloat.is_finite (Amount e) = true) l ->
  exists docs, mapM Json.encodeExpense l = Some docs.
Proof.
  intros H. apply (mapM_is_Some Json.encodeExpense).
  eapply Forall_impl; [exact H|]. intros e He. simpl in He.
  unfold compose. rewrite (encodeExpense_Some _ He). eauto.
Qed.

Lemma encodeExpenses_finite l docs :
  mapM Json.encodeExpense l = Some docs ->
  Forall (fun e => PrimFloat.is_finite (Amount e) = true) l.
Proof.
  intros H. apply mapM_Some in H.
  induction H as [|e doc l docs He _ IH]; constructor; [|exact IH].
  eapply encodeExpense_finite; eassumption.
Qed.

(** Decoding what the encoder wrote gives the store back, with its nil
    map if it had one. *)
Lemma decode_encodeStore st doc :
  typedStore st -> Json.encodeStore st = Some doc -> Json.decodeStore doc = Some st.
Proof.
  intros [Hn Hes] Henc. unfold Json.encodeStore in Henc.
  destruct (mapM Json.encodeExpense (Expenses st)) as [docs|] eqn:Hdocs;
    simpl in Henc; [|discriminate].
  destruct st as [next exps buds]. simpl in *.
  destruct buds as [m|]; simpl in Henc.
  - destruct (Json.finiteMap m) as [m'|] eqn:Hm; simpl in Henc; [|discriminate].
    injection Henc as <-. apply finiteMap_Some in Hm as Hm'. destruct Hm' as [-> _].
    unfold Json.decodeStore. simpl. rewrite (int_Given _ Hn). simpl.
    rewrite (decode_encodeExpenses _ _ Hes Hdocs). simpl. rewrite Hm. reflexivity.
  - injection Henc as <-.
    unfold Json.decodeStore. simpl. rewrite (int_Given _ Hn). simpl.
    rewrite (decode_encodeExpenses _ _ Hes Hdocs). reflexivity.
Qed.

Lemma decodeStore_typed doc st : Json.decodeStore doc = Some st -> typedStore st.
Proof.
  unfold Json.decodeStore. intros H.
  destruct (Json.int (doc_next_id doc)) as [n|] eqn:Hn; simpl in H; [|discriminate].
  destruct (match doc_expenses doc with
            | Omitted => Some [] | Ill => None
            | Given l => mapM Json.decodeExpense l end) as [es|] eqn:Hes;
    simpl in H; [|discriminate].
  destruct (match doc_budgets doc with
            | Omitted => Some None | Ill => None
            | Given m => Some <$> Json.finiteMap m end) as [b|]; simpl in H; [|discriminate].
  injection H as <-. split; simpl.
  - eapply int_range; eassumption.
  - destruct (doc_expenses doc) as [| |l]; try discriminate.
    + injection Hes as <-. constructor.
    + apply mapM_Some in Hes. clear -Hes.
      induction Hes as [|d e l k Hd _ IH]; constructor; [|exact IH].
      unfold Json.decodeExpense in Hd.
      destruct (Json.int (doc_id d)) as [i|] eqn:Hi; simpl in Hd; [|discriminate].
      destruct (Json.field "" (doc_date d)); simpl in Hd; [|discriminate].
      destruct (Json.field "" (doc_description d)); simpl in Hd; [|discriminate].
      destruct (Json.float64 (doc_amount d)); simpl in Hd; [|discriminate].
      destruct (Json.field "" (doc_category d)); simpl in Hd; [|discriminate].
      destruct (Json.field Time.zero (doc_created_at d)); simpl in Hd; [|discriminate].
      destruct (Json.field Time.zero (doc_updated_at d)); simpl in Hd; [|discriminate].
      injection Hd as <-. unfold typedExpense. simpl. eapply int_range; eassumption.
Qed.

Lemma loadStore_Document env d doc raw :
  home_ok env = true -> data_file d = Document doc -> Json.decodeStore doc = Some raw ->
  loadStore env d = inr (normalized raw).
Proof.
  intros Hh Hd Hdec. unfold loadStore. rewrite Hh, Hd, Hdec. simpl.
  destruct raw as [n es [m|]]; unfold normalized, set_NextID, set_Budgets; simpl;
    destruct (n =? 0); reflexivity.
Qed.

(** A store that [loadStore] returned. *)
Lemma loadStore_inv env d st :
  loadStore env d = inr st ->
  home_ok env = true
  /\ (data_file d = NoFile /\ st = {| NextID := 1; Expenses := []; Budgets := Some ∅ |}
      \/ exists doc raw, data_file d = Document doc /\ Json.decodeStore doc = Some raw
                         /\ st = normalized raw).
Proof.
  intros H. destruct (home_ok env) eqn:Hh.
  2:{ unfold loadStore in H. rewrite Hh in H. discriminate. }
  split; [reflexivity|].
  destruct (data_file d) as [| | |doc] eqn:Hd.
  - left. unfold loadStore in H. rewrite Hh, Hd in H. simpl in H. injection H as <-. auto.
  - unfold loadStore in H. rewrite Hh, Hd in H. discriminate.
  - unfold loadStore in H. rewrite Hh, Hd in H. discriminate.
  - right. destruct (Json.decodeStore doc) as [raw|] eqn:Hdec.
    + exists doc, raw. rewrite (loadStore_Document _ _ _ _ Hh Hd Hdec) in H.
      injection H as <-. auto.
    + unfold loadStore in H. rewrite Hh, Hd, Hdec in H. discriminate.
Qed.

Lemma loadStore_Budgets env d st : loadStore env d = inr st -> exists m, Budgets st = Some m.
Proof.
  intros H. apply loadStore_inv in H as [_ [[_ ->]|(doc & raw & _ & _ & ->)]]; simpl; eauto.
Qed.

Lemma loadStore_typed env d st : loadStore env d = inr st -> typedStore st.
Proof.
  intros H. apply loadStore_inv in H as [_ [[_ ->]|(doc & raw & _ & Hdec & ->)]].
  - split; simpl; [in_range | constructor].
  - apply decodeStore_typed in Hdec as [Hn Hes]. split; simpl; [|exact Hes].
    destruct (NextID raw =? 0); [in_range | exact Hn].
Qed.

Lemma save_inr env st d d' :
  save env st d = inr d' <->
  home_ok env = true /\ write_ok env = true
  /\ exists doc, Json.encodeStore st = Some doc /\ d' = set_data_file (Document doc) d.
Proof.
  unfold save. destruct (home_ok env), (write_ok env); simpl;
    try (split; [discriminate | intros (? & ? & _); discriminate]).
  destruct (Json.encodeStore st) as [doc|].
  - split.
    + intros [= <-]. eauto.
    + intros (_ & _ & doc' & [= <-] & ->). reflexivity.
  - split; [discriminate | intros (_ & _ & doc' & ? & _); discriminate].
Qed.

Lemma save_stored env st d d' :
  typedStore st -> save env st d = inr d' ->
  stored d' = Some st /\ csv_files d' = csv_files d.
Proof.
  intros Ht H. apply save_inr in H as (_ & _ & doc & Henc & ->).
  split; [|reflexivity]. unfold stored. simpl. apply decode_encodeStore; assumption.
Qed.

Lemma save_total env st d :
  home_ok env = true -> write_ok env = true -> finiteStore st ->
  exists d', save env st d = inr d'.
Proof.
  intros Hh Hw [Ha Hm]. destruct (encodeExpenses_total _ Ha) as [docs Hdocs].
  unfold save, Json.encodeStore. rewrite Hh, Hw, Hdocs. simpl.
  destruct (Budgets st) as [m|] eqn:Eb; simpl; [|eauto].
  rewrite (proj2 (finiteMap_Some m m) (conj eq_refl (Hm m eq_refl))). simpl. eauto.
Qed.

(** C7: [loadStore] returns the fresh store (counter 1, no expense, an
    empty non-nil budgets map) when the data file does not exist; fails
    with the corrupt-store error when the file does not decode; and
    returns every store it decodes with a nil budgets map made empty and
    a zero counter made 1, the rest as decoded. *)
Theorem loadStore_cases (env : Env) (d : Disk) (Hhome : home_ok env = true) :
  (data_file d = NoFile ->
     loadStore env d = inr {| NextID := 1; Expenses := []; Budgets := Some ∅ |})
  /\ (data_file d = Malformed -> loadStore env d = inl CorruptStoreError)
  /\ (forall doc, data_file d = Document doc -> Json.decodeStore doc = None ->
        loadStore env d = inl CorruptStoreError)
  /\ (forall doc raw, data_file d = Document doc -> Json.decodeStore doc = Some raw ->
        loadStore env d =
          inr {| NextID := if NextID raw =? 0 then 1 else NextID raw;
                 Expenses := Expenses raw;
                 Budgets := Some (match Budgets raw with Some m => m | None => ∅ end) |})
  /\ (forall st, loadStore env d = inr st ->
        (NextID st =? 0) = false /\ exists m, Budgets st = Some m).
Proof.
  repeat split.
  - intros Hd. unfold loadStore. rewrite Hhome, Hd. reflexivity.
  - intros Hd. unfold loadStore. rewrite Hhome, Hd. reflexivity.
  - intros doc Hd Hdec. unfold loadStore. rewrite Hhome, Hd, Hdec. reflexivity.
  - intros doc raw Hd Hdec. rewrite (loadStore_Document _ _ _ _ Hhome Hd Hdec).
    unfold normalized. destruct (Budgets raw); reflexivity.
  - apply loadStore_inv in H as [_ [[_ ->]|(doc & raw & _ & _ & ->)]]; simpl.
    + reflexivity.
    + destruct (NextID raw =? 0) eqn:E; [reflexivity | exact E].
  - eapply loadStore_Budgets; eassumption.
Qed.

Lemma loadStore_cases_witness :
  home_ok Sample.env = true
  /\ loadStore Sample.env freshDisk = inr {| NextID := 1; Expenses := []; Budgets := Some ∅ |}.
Proof.
  split; [reflexivity|].
  exact (proj1 (loadStore_cases Sample.env freshDisk eq_refl) eq_refl).
Defined.




(** ** Helpers of the commands *)

Lemma wrap_in_range z : Int.in_range (Int.wrap z).
Proof.
  unfold Int.in_range, Int.wrap, Int.min_int, Int.max_int.
  pose proof (Z.mod_pos_bound (z + 2 ^ 63) (2 ^ 64) ltac:(lia)). lia.
Qed.


Lemma findIndex_Some id l k i :
  findIndex id l k = Some i ->
  exists e, l !! (i - k)%nat = Some e /\ ID e = id /\ (k <= i)%nat.
Proof.
  revert k. induction l as [|x l IH]; intros k H; simpl in H; [discriminate|].
  destruct (ID x =? id) eqn:E.
  - injection H as <-. exists x. rewrite Nat.sub_diag. apply Z.eqb_eq in E. auto.
  - apply IH in H as (e & Hl & He & Hk). exists e.
    replace (i - k)%nat with (S (i - S k)) by lia. simpl. repeat split; [assumption..|lia].
Qed.

Lemma findByID_Some st id i :
  findByID st id = Some i -> exists e, Expenses st !! i = Some e /\ ID e = id.
Proof.
  intros H. apply findIndex_Some in H as (e & Hl & He & _).
  rewrite Nat.sub_0_r in Hl. eauto.
Qed.



(** Assignments to other fields than the ID keep a store well typed. *)
Lemma assign_typed i g st :
  (forall e, ID (g e) = ID e) -> typedStore st -> typedStore (assign i g st).
Proof.
  intros Hg [Hn Hes]. split; [exact Hn|]. simpl.
  apply Forall_alter; [exact Hes|]. intros e _ He. unfold typedExpense in *.
  rewrite Hg. exact He.
Qed.

Lemma assign_finite i g st :
  (forall e, PrimFloat.is_finite (Amount e) = true -> PrimFloat.is_finite (Amount (g e)) = true) ->
  finiteStore st -> finiteStore (assign i g st).
Proof.
  intros Hg [Ha Hm]. split; [|exact Hm]. simpl.
  apply Forall_alter; [exact Ha|]. intros e _ He. auto.
Qed.

Lemma decodeStore_finite doc st : Json.decodeStore doc = Some st -> finiteStore st.
Proof.
  unfold Json.decodeStore. intros H.
  destruct (Json.int (doc_next_id doc)) as [n|]; simpl in H; [|discriminate].
  destruct (match doc_expenses doc with
            | Omitted => Some [] | Ill => None
            | Given l => mapM Json.decodeExpense l end) as [es|] eqn:Hes;
    simpl in H; [|discriminate].
  destruct (match doc_budgets doc with
            | Omitted => Some None | Ill => None
            | Given m => Some <$> Json.finiteMap m end) as [b|] eqn:Hb; simpl in H; [|discriminate].
  injection H as <-. split; simpl.
  - destruct (doc_expenses doc) as [| |l]; try discriminate.
    + injection Hes as <-. constructor.
    + apply mapM_Some in Hes. clear -Hes.
      induction Hes as [|d e l k Hd _ IH]; constructor; [|exact IH].
      unfold Json.decodeExpense in Hd.
      destruct (Json.int (doc_id d)) as [i|]; simpl in Hd; [|discriminate].
      destruct (Json.field "" (doc_date d)); simpl in Hd; [|discriminate].
      destruct (Json.field "" (doc_description d)); simpl in Hd; [|discriminate].
      destruct (Json.float64 (doc_amount d)) as [a|] eqn:Ha; simpl in Hd; [|discriminate].
      destruct (Json.field "" (doc_category d)); simpl in Hd; [|discriminate].
      destruct (Json.field Time.zero (doc_created_at d)); simpl in Hd; [|discriminate].
      destruct (Json.field Time.zero (doc_updated_at d)); simpl in Hd; [|discriminate].
      injection Hd as <-. simpl. eapply float64_finite; eassumption.
  - intros m ->. destruct (doc_budgets doc) as [| |m']; try discriminate.
    destruct (Json.finiteMap m') as [m''|] eqn:Hm; simpl in Hb; [|discriminate].
    injection Hb as ->. apply finiteMap_Some in Hm as [-> Hm]. exact Hm.
Qed.

Lemma loadStore_finite env d st : loadStore env d = inr st -> finiteStore st.
Proof.
  intros H. apply loadStore_inv in H as [_ [[_ ->]|(doc & raw & _ & Hdec & ->)]].
  - split; simpl; [constructor|]. intros m [= <-]. apply map_Forall_empty.
  - apply decodeStore_finite in Hdec as [Ha Hm]. split; simpl; [exact Ha|].
    intros m [= <-]. destruct (Budgets raw) as [m|]; simpl.
    + apply Hm. reflexivity.
    + apply map_Forall_empty.
Qed.

(** ** add *)

(** What a successful [cmdAdd] did. *)
Lemma cmdAdd_success env f d :
  err (cmdAdd env f d) = None ->
  exists st0 dt k e st,
    loadStore env d = inr st0
    /\ parseDateOrToday env 0 (default "" (add_date f)) = (inr dt, k)
    /\ e = {| ID := NextID st0; Date := dt;
              Description := Strings.TrimSpace (default "" (add_description f));
              Amount := default 0%float (add_amount f);
              Category := Strings.TrimSpace (default defaultCat (add_category f));
              CreatedAt := clock env k; UpdatedAt := clock env (S k) |}
    /\ st = {| NextID := Int.incr (NextID st0); Expenses := Expenses st0 ++ [e];
               Budgets := Budgets st0 |}
    /\ save env st d = inr (disk (cmdAdd env f d))
    /\ mem (cmdAdd env f d) = Some st
    /\ printed (cmdAdd env f d) = OutAdded (NextID st0) :: warnIfBudgetExceeded st dt "".
Proof.
  unfold cmdAdd.
  destruct (String.eqb (Strings.TrimSpace (default "" (add_description f))) "");
    [discriminate|].
  destruct (PrimFloat.leb (default 0%float (add_amount f)) 0); [discriminate|].
  destruct (parseDateOrToday env 0 (default "" (add_date f))) as [[e|dt] k];
    [discriminate|].
  destruct (loadStore env d) as [e|st0]; [discriminate|].
  match goal with |- context [save env ?s d] => destruct (save env s d) as [e|d'] eqn:Hs end;
    [discriminate|].
  intros _. simpl. eexists st0, dt, k, _, _. repeat split. exact Hs.
Qed.



(** ** What the commands do to the disk *)

Lemma loadStore_loaded env d st :
  loadStore env d = inr st <-> home_ok env = true /\ loaded d = Some st.
Proof.
  unfold loadStore, loaded. destruct (home_ok env); simpl.
  2:{ split; [discriminate | intros [? _]; discriminate]. }
  destruct (data_file d) as [| | |doc].
  - split; [intros [= <-]; auto | intros [_ [= <-]]; reflexivity].
  - split; [discriminate | intros [_ ?]; discriminate].
  - split; [discriminate | intros [_ ?]; discriminate].
  - destruct (Json.decodeStore doc) as [raw|]; simpl.
    + assert (E : (let st0 := if Budgets raw is None then set_Budgets (Some ∅) raw else raw in
                   if NextID st0 =? 0 then set_NextID 1 st0 else st0) = normalized raw).
      { destruct raw as [n es [m|]]; unfold normalized, set_NextID, set_Budgets; simpl;
          destruct (n =? 0); reflexivity. }
      simpl in E. rewrite E.
      split; [intros [= <-]; auto | intros [_ [= <-]]; reflexivity].
    + split; [discriminate | intros [_ ?]; discriminate].
Qed.

Lemma loaded_save env st d d' :
  typedStore st -> save env st d = inr d' -> loaded d' = Some (normalized st).
Proof.
  intros Ht H. apply save_inr in H as (_ & _ & doc & Henc & ->).
  unfold loaded. simpl. rewrite (decode_encodeStore _ _ Ht Henc). reflexivity.
Qed.

Lemma list_alter_alter (g h : Expense -> Expense) i (l : list Expense) :
  alter h i (alter g i l) = alter (fun e => h (g e)) i l.
Proof.
  revert i. induction l as [|x l IH]; intros [|i]; simpl; try reflexivity.
  f_equal. apply IH.
Qed.

Lemma assign_assign g h i st : assign i h (assign i g st) = assign i (fun e => h (g e)) st.
Proof. unfold assign, set_Expenses. simpl. rewrite list_alter_alter. reflexivity. Qed.

Lemma assign_id i st : assign i (fun e => e) st = st.
Proof.
  unfold assign, set_Expenses. destruct st as [n es b]. simpl. f_equal.
  revert i. induction es as [|x l IH]; intros [|i]; simpl; try reflexivity.
  f_equal. apply IH.
Qed.

Ltac update_saved st0 i Hf H1 :=
  rewrite !assign_assign;
  match goal with
  | |- context [save ?env (assign i ?G st0) ?d] =>
      let Hs := fresh "Hs" in
      destruct (save env (assign i G st0) d) as [?|?] eqn:Hs; try discriminate;
      intros _; simpl; exists st0, i, G, (assign i G st0);
      (split; [reflexivity|]); (split; [exact Hf|]);
      (split; [intros ?; simpl; apply H1|]); (split; [intros ?; reflexivity|]);
      (split; [reflexivity|]); (split; [exact Hs|]); split; reflexivity
  end.

(** What a successful [cmdUpdate] did: one function applied to the slot
    found, which keeps its ID. *)
Lemma cmdUpdate_success env f d :
  err (cmdUpdate env f d) = None ->
  exists st0 i g st,
    loadStore env d = inr st0
    /\ findByID st0 (default 0 (upd_id f)) = Some i
    /\ (forall e, ID (g e) = ID e)
    /\ (forall e, UpdatedAt (g e) = clock env 0)
    /\ st = assign i g st0
    /\ save env st d = inr (disk (cmdUpdate env f d))
    /\ mem (cmdUpdate env f d) = Some st
    /\ printed (cmdUpdate env f d) =
         OutUpdated :: warnIfBudgetExceeded st (from_option Date "" (Expenses st !! i)) "".
Proof.
  unfold cmdUpdate.
  destruct (default 0 (upd_id f) <=? 0); [discriminate|].
  destruct (loadStore env d) as [e|st0] eqn:Hl; [discriminate|].
  destruct (findByID st0 (default 0 (upd_id f))) as [i|] eqn:Hf; [|discriminate].
  set (g1 := if negb (String.eqb (Strings.TrimSpace (default "" (upd_description f))) "")
             then set_Description (Strings.TrimSpace (default "" (upd_description f)))
             else fun e => e).
  assert (E1 : (if negb (String.eqb (Strings.TrimSpace (default "" (upd_description f))) "")
                then assign i (set_Description (Strings.TrimSpace (default "" (upd_description f)))) st0
                else st0) = assign i g1 st0).
  { unfold g1. destruct (negb _); [reflexivity | symmetry; apply assign_id]. }
  rewrite E1. clear E1.
  assert (H1 : forall e, ID (g1 e) = ID e).
  { intros e. unfold g1. destruct (negb _); reflexivity. }
  clearbody g1.
  destruct (upd_amount f) as [val|].
  - destruct (PrimFloat.leb val 0); [discriminate|].
    rewrite assign_assign.
    destruct (negb (String.eqb (Strings.TrimSpace (default "" (upd_date f))) "")).
    + destruct (Date.parse (default "" (upd_date f))); [|discriminate].
      rewrite assign_assign.
      destruct (negb (String.eqb (Strings.TrimSpace (default "" (upd_category f))) ""));
        update_saved st0 i Hf H1.
    + destruct (negb (String.eqb (Strings.TrimSpace (default "" (upd_category f))) ""));
        update_saved st0 i Hf H1.
  - destruct (negb (String.eqb (Strings.TrimSpace (default "" (upd_date f))) "")).
    + destruct (Date.parse (default "" (upd_date f))); [|discriminate].
      rewrite assign_assign.
      destruct (negb (String.eqb (Strings.TrimSpace (default "" (upd_category f))) ""));
        update_saved st0 i Hf H1.
    + destruct (negb (String.eqb (Strings.TrimSpace (default "" (upd_category f))) ""));
        update_saved st0 i Hf H1.
Qed.

Lemma cmdDelete_success env id d :
  err (cmdDelete env id d) = None ->
  exists st0 idx e st,
    0 < default 0 id
    /\ loadStore env d = inr st0
    /\ findByID st0 (default 0 id) = Some idx
    /\ Expenses st0 !! idx = Some e /\ ID e = default 0 id
    /\ st = set_Expenses (take idx (Expenses st0) ++ drop (S idx) (Expenses st0)) st0
    /\ save env st d = inr (disk (cmdDelete env id d))
    /\ mem (cmdDelete env id d) = Some st.
Proof.
  unfold cmdDelete.
  destruct (default 0 id <=? 0) eqn:Hid; [discriminate|].
  destruct (loadStore env d) as [e|st0] eqn:Hl; [discriminate|].
  destruct (findByID st0 (default 0 id)) as [idx|] eqn:Hf; [|discriminate].
  match goal with |- context [save env ?s d] => destruct (save env s d) as [e|d'] eqn:Hs end;
    [discriminate|].
  intros _. simpl. destruct (findByID_Some _ _ _ Hf) as (e & He & Hide).
  eexists st0, idx, e, _. apply Z.leb_gt in Hid.
  repeat split; try eassumption.
Qed.

Lemma cmdBudget_success env f d :
  err (cmdBudget env f d) = None ->
  disk (cmdBudget env f d) = d
  \/ exists st0 m mk v st,
       bud_set f = Some v /\ PrimFloat.leb 0 v = true
       /\ loadStore env d = inr st0 /\ Budgets st0 = Some m
       /\ st = set_Budgets (Some (<[mk := v]> m)) st0
       /\ save env st d = inr (disk (cmdBudget env f d))
       /\ mem (cmdBudget env f d) = Some st
       /\ printed (cmdBudget env f d) = [OutBudgetSet mk v].
Proof.
  unfold cmdBudget.
  destruct (if default 0 (bud_month f) =? 0
            then (Time.Month (clock env 0), 1%nat)
            else (default 0 (bud_month f), 0%nat)) as [month k].
  destruct ((month <? 1) || (12 <? month)); [discriminate|].
  destruct (loadStore env d) as [e|st0] eqn:Hl; [discriminate|].
  destruct (PrimFloat.leb 0 (default (-1)%float (bud_set f))) eqn:Hv.
  - destruct (Budgets st0) as [m|] eqn:Hm; [|discriminate].
    match goal with |- context [save env ?s d] => destruct (save env s d) as [e|d'] eqn:Hs end;
      [discriminate|].
    intros _. right. simpl.
    destruct (bud_set f) as [v|] eqn:Hset; simpl in *; [|discriminate].
    eexists st0, m, _, v, _. repeat split; try eassumption; reflexivity.
  - intros _. left.
    destruct (budgetOf st0 _) as [b|]; [destruct (PrimFloat.leb b 0)|]; reflexivity.
Qed.

(** A command that returns an error has left the disk as it found it. *)
Lemma dispatch_failure env c d e : err (dispatch env c d) = Some e -> disk (dispatch env c d) = d.
Proof.
  destruct c as [f|f|id|f|f|f|f]; simpl.
  - unfold cmdAdd.
    destruct (String.eqb _ ""); [reflexivity|].
    destruct (PrimFloat.leb _ 0); [reflexivity|].
    destruct (parseDateOrToday env 0 _) as [[?|dt] k]; [reflexivity|].
    destruct (loadStore env d); [reflexivity|].
    destruct (save env _ d); [reflexivity | discriminate].
  - unfold cmdUpdate.
    destruct (_ <=? 0); [reflexivity|].
    destruct (loadStore env d); [reflexivity|].
    destruct (findByID _ _); [|reflexivity].
    destruct (upd_amount f) as [val|]; [destruct (PrimFloat.leb val 0); [reflexivity|]|];
      (destruct (negb (String.eqb (Strings.TrimSpace (default "" (upd_date f))) ""));
       [destruct (Date.parse _); [|reflexivity]|]);
      (destruct (save env _ d); [reflexivity | discriminate]).
  - unfold cmdDelete.
    destruct (_ <=? 0); [reflexivity|].
    destruct (loadStore env d); [reflexivity|].
    destruct (findByID _ _); [|reflexivity].
    destruct (save env _ d); [reflexivity | discriminate].
  - unfold cmdList. destruct (loadStore env d); [reflexivity|].
    destruct (_ && _); [reflexivity | discriminate].
  - unfold cmdSummary. destruct (loadStore env d); [reflexivity|].
    destruct (_ =? 0); [discriminate|].
    destruct (_ || _); [reflexivity | discriminate].
  - unfold cmdBudget.
    destruct (if default 0 (bud_month f) =? 0
              then (Time.Month (clock env 0), 1%nat)
              else (default 0 (bud_month f), 0%nat)) as [month k].
    destruct (_ || _); [reflexivity|].
    destruct (loadStore env d) as [?|st0]; [reflexivity|].
    destruct (PrimFloat.leb 0 _).
    + destruct (Budgets st0); [|reflexivity].
      destruct (save env _ d); [reflexivity | discriminate].
    + destruct (budgetOf st0 _) as [b|]; [destruct (PrimFloat.leb b 0)|]; discriminate.
  - unfold cmdExport. destruct (loadStore env d); [reflexivity|].
    destruct (_ && _); [reflexivity|].
    destruct (negb _); [reflexivity | discriminate].
Qed.


Lemma Mutation_typed st0 st : typedStore st0 -> Mutation st0 st -> typedStore st.
Proof.
  intros [Hn Hes] [e He|i g Hg|idx e _|m mk v _ _].
  - split; simpl; [apply wrap_in_range|].
    apply Forall_app. split; [exact Hes|]. constructor; [|constructor].
    unfold typedExpense. rewrite He. exact Hn.
  - apply assign_typed; [exact Hg | split; assumption].
  - split; simpl; [exact Hn|]. apply Forall_app. split.
    + apply Forall_take. exact Hes.
    + apply Forall_drop. exact Hes.
  - split; simpl; assumption.
Qed.

(** ** Invariants of the data file *)

Lemma loaded_stored d st :
  loaded d = Some st ->
  data_file d = NoFile /\ st = {| NextID := 1; Expenses := []; Budgets := Some ∅ |}
  \/ exists raw, stored d = Some raw /\ st = normalized raw.
Proof.
  unfold loaded, stored. destruct (data_file d) as [| | |doc]; try discriminate.
  - intros [= <-]. left. auto.
  - destruct (Json.decodeStore doc) as [raw|]; [|discriminate].
    intros [= <-]. right. eauto.
Qed.

Section DiskInvariant.
Variable P : Store -> Prop.
Hypothesis P_fresh : P {| NextID := 1; Expenses := []; Budgets := Some ∅ |}.
Hypothesis P_normalized : forall st, P st -> P (normalized st).
Hypothesis P_mutation : forall st0 st, typedStore st0 -> P st0 -> Mutation st0 st -> P st.


End DiskInvariant.



Lemma cmdBudget_set env f d v :
  bud_set f = Some v -> PrimFloat.leb 0 v = true -> err (cmdBudget env f d) = None ->
  exists st0 m mk,
    loadStore env d = inr st0 /\ Budgets st0 = Some m
    /\ printed (cmdBudget env f d) = [OutBudgetSet mk v]
    /\ mem (cmdBudget env f d) = Some (set_Budgets (Some (<[mk := v]> m)) st0)
    /\ save env (set_Budgets (Some (<[mk := v]> m)) st0) d = inr (disk (cmdBudget env f d)).
Proof.
  intros Hset Hv. unfold cmdBudget.
  destruct (if default 0 (bud_month f) =? 0
            then (Time.Month (clock env 0), 1%nat)
            else (default 0 (bud_month f), 0%nat)) as [month k].
  destruct (_ || _); [discriminate|].
  destruct (loadStore env d) as [?|st0] eqn:Hl; [discriminate|].
  rewrite Hset. simpl. rewrite Hv.
  destruct (loadStore_Budgets _ _ _ Hl) as [m Hm]. rewrite Hm.
  destruct (save env _ d) as [?|d'] eqn:Hs; [discriminate|]. intros _. simpl.
  eexists st0, m, _. repeat split; try eassumption; reflexivity.
Qed.


Lemma cmdBudget_total env f d st0 v mo :
  loadStore env d = inr st0 -> write_ok env = true ->
  bud_set f = Some v -> bud_month f = Some mo -> 1 <= mo <= 12 ->
  PrimFloat.leb 0 v = true -> PrimFloat.is_finite v = true ->
  let yr := if default 0 (bud_year f) =? 0 then Time.Year (clock env 0)
            else default 0 (bud_year f) in
  err (cmdBudget env f d) = None
  /\ printed (cmdBudget env f d) = [OutBudgetSet (Fmt.pad0 4 yr +:+ "-" +:+ Fmt.pad0 2 mo) v].
Proof.
  intros Hl Hw Hset Hmo [H1 H2] Hv Hfin yr. unfold cmdBudget.
  rewrite Hset, Hmo. simpl.
  destruct (Z.eqb_spec mo 0) as [?|_]; [lia|].
  apply Z.ltb_ge in H1. apply Z.ltb_ge in H2. rewrite H1, H2. simpl.
  rewrite Hl, Hv. destruct (loadStore_Budgets _ _ _ Hl) as [m Hm]. rewrite Hm.
  fold yr.
  set (st := set_Budgets (Some (<[Fmt.pad0 4 yr +:+ "-" +:+ Fmt.pad0 2 mo := v]> m)) st0).
  assert (Hf : finiteStore st).
  { destruct (loadStore_finite _ _ _ Hl) as [Ha Hb]. split; [exact Ha|].
    intros m' [= <-]. apply map_Forall_insert_2; [exact Hfin | apply Hb; exact Hm]. }
  apply loadStore_loaded in Hl as [Hh _].
  destruct (save_total env st d Hh Hw Hf) as [d' ->]. split; reflexivity.
Qed.




(** ** The counter of identifiers *)









(** ** update *)

Lemma assign_lookup_ne i j g st :
  i <> j -> Expenses (assign i g st) !! j = Expenses st !! j.
Proof. intros H. simpl. apply list_lookup_alter_ne. exact H. Qed.

Lemma assign_lookup i g st e :
  Expenses st !! i = Some e -> Expenses (assign i g st) !! i = Some (g e).
Proof. intros H. simpl. rewrite list_lookup_alter_eq, H. reflexivity. Qed.

(** C9: an update that gives the ID of an expense of the store and no
    other flag refreshes the [UpdatedAt] of that expense and changes
    nothing else: not its other fields, not another expense, not the
    counter, not the budgets; that store is what it saves. *)
Theorem update_without_fields (env : Env) (d : Disk) (id : Z) (st : Store) (i : nat)
    (Hload : loadStore env d = inr st) (Hid : 0 < id) (Hfind : findByID st id = Some i) :
  let r := cmdUpdate env {| upd_id := Some id; upd_description := None; upd_amount := None;
                            upd_date := None; upd_category := None |} d in
  exists st' e,
    mem r = Some st'
    /\ (disk r = d \/ err r = None /\ stored (disk r) = Some st')
    /\ (write_ok env = true -> err r = None /\ stored (disk r) = Some st')
    /\ NextID st' = NextID st /\ Budgets st' = Budgets st
    /\ length (Expenses st') = length (Expenses st)
    /\ (forall j, j <> i -> Expenses st' !! j = Expenses st !! j)
    /\ Expenses st !! i = Some e /\ ID e = id
    /\ Expenses st' !! i =
         Some {| ID := ID e; Date := Date e; Description := Description e;
                 Amount := Amount e; Category := Category e;
                 CreatedAt := CreatedAt e; UpdatedAt := clock env 0 |}.
Proof.
  intros r. destruct (findByID_Some _ _ _ Hfind) as (e & He & Hide).
  set (st' := assign i (set_UpdatedAt (clock env 0)) st).
  assert (Ht : typedStore st').
  { apply assign_typed; [reflexivity | eapply loadStore_typed; eassumption]. }
  assert (Hfin : finiteStore st').
  { apply assign_finite; [auto | eapply loadStore_finite; eassumption]. }
  assert (Hr : r = match save env st' d with
                   | inl er => fail er (Some st') d
                   | inr d' =>
                       {| printed := OutUpdated
                            :: warnIfBudgetExceeded st' (from_option Date "" (Expenses st' !! i)) "";
                          err := None; mem := Some st'; disk := d' |}
                   end).
  { unfold r, cmdUpdate. simpl. apply Z.leb_gt in Hid. rewrite Hid, Hload, Hfind. reflexivity. }
  exists st', e. rewrite Hr.
  split; [destruct (save env st' d); reflexivity|].
  split.
  { destruct (save env st' d) as [er|d'] eqn:Hs; [left; reflexivity|].
    right. split; [reflexivity|]. exact (proj1 (save_stored _ _ _ _ Ht Hs)). }
  split.
  { intros Hw. apply loadStore_loaded in Hload as Hh. destruct Hh as [Hh _].
    destruct (save_total env st' d Hh Hw Hfin) as [d' Hs]. rewrite Hs.
    split; [reflexivity|]. exact (proj1 (save_stored _ _ _ _ Ht Hs)). }
  split; [reflexivity|]. split; [reflexivity|].
  split; [simpl; apply length_alter|].
  split; [intros j Hj; apply assign_lookup_ne; auto|].
  split; [exact He|]. split; [exact Hide|].
  unfold st'. rewrite (assign_lookup _ _ _ _ He). reflexivity.
Qed.

Lemma update_without_fields_witness :
  exists st' e,
    mem (cmdUpdate Sample.env Sample.updateNothing Sample.disk) = Some st'
    /\ Expenses Sample.store !! 0%nat = Some e
    /\ Expenses st' !! 0%nat =
         Some {| ID := ID e; Date := Date e; Description := Description e;
                 Amount := Amount e; Category := Category e;
                 CreatedAt := CreatedAt e; UpdatedAt := clock Sample.env 0 |}.
Proof.
  destruct (update_without_fields Sample.env Sample.disk 1 Sample.store 0
              eq_refl eq_refl eq_refl)
    as (st' & e & Hm & _ & _ & _ & _ & _ & _ & He & _ & He').
  exists st', e. split; [exact Hm|]. split; [exact He | exact He'].
Defined.

(** C1, as the code has it: an update that gives an amount of zero or
    less fails with the validation error and saves nothing: the data
    file, and with it the stored amount and every other stored field,
    is as before.  In the store the command holds in memory and drops,
    a description given with it has already replaced the old one; the
    amount, the date, the category, the timestamps, the other expenses,
    the counter and the budgets are as loaded. *)
Theorem update_rejects_amount (env : Env) (f : UpdateFlags) (d : Disk)
    (st : Store) (id : Z) (i : nat) (e : Expense) (v : float)
    (Hload : loadStore env d = inr st) (Hflag : upd_id f = Some id) (Hid : 0 < id)
    (Hfind : findByID st id = Some i) (He : Expenses st !! i = Some e)
    (Hamount : upd_amount f = Some v) (Hv : PrimFloat.leb v 0 = true) :
  let r := cmdUpdate env f d in
  let desc := Strings.TrimSpace (default "" (upd_description f)) in
  err r = Some (ValidationError "--amount must be a positive number")
  /\ printed r = []
  /\ disk r = d
  /\ exists st',
       mem r = Some st'
       /\ NextID st' = NextID st /\ Budgets st' = Budgets st
       /\ length (Expenses st') = length (Expenses st)
       /\ (forall j, j <> i -> Expenses st' !! j = Expenses st !! j)
       /\ Expenses st' !! i =
            Some {| ID := ID e; Date := Date e;
                    Description := if String.eqb desc "" then Description e else desc;
                    Amount := Amount e; Category := Category e;
                    CreatedAt := CreatedAt e; UpdatedAt := UpdatedAt e |}.
Proof.
  intros r desc. unfold r, cmdUpdate. rewrite Hflag, Hamount. simpl.
  apply Z.leb_gt in Hid. rewrite Hid, Hload, Hfind, Hv. fold desc. simpl.
  repeat (split; [reflexivity|]). eexists. split; [reflexivity|].
  destruct (String.eqb desc "") eqn:Hd; simpl;
    (split; [reflexivity|]); (split; [reflexivity|]).
  - split; [reflexivity|]. split; [reflexivity|].
    rewrite He. destruct e; reflexivity.
  - split; [apply length_alter|].
    split; [intros j Hj; apply list_lookup_alter_ne; auto|].
    rewrite list_lookup_alter_eq, He. reflexivity.
Qed.

Lemma update_rejects_amount_witness :
  err (cmdUpdate Sample.env Sample.updateDinnerZero Sample.disk)
    = Some (ValidationError "--amount must be a positive number")
  /\ disk (cmdUpdate Sample.env Sample.updateDinnerZero Sample.disk) = Sample.disk.
Proof.
  destruct (update_rejects_amount Sample.env Sample.updateDinnerZero Sample.disk
              Sample.store 1 0 Sample.lunch 0%float
              eq_refl eq_refl eq_refl eq_refl eq_refl eq_refl eq_refl)
    as (Herr & _ & Hdisk & _).
  split; [exact Herr | exact Hdisk].
Defined.

(** C1 fails as stated when a description comes with the amount: the
    description of the expense in memory is replaced before the amount
    is rejected. *)
Lemma update_assigns_description_first :
  exists st e st' e',
    loadStore Sample.env Sample.disk = inr st
    /\ Expenses st !! 0%nat = Some e /\ Description e = "Lunch"
    /\ err (cmdUpdate Sample.env Sample.updateDinnerZero Sample.disk)
         = Some (ValidationError "--amount must be a positive number")
    /\ mem (cmdUpdate Sample.env Sample.updateDinnerZero Sample.disk) = Some st'
    /\ Expenses st' !! 0%nat = Some e' /\ Description e' = "Dinner".
Proof. eexists _, _, _, _. repeat (split; [reflexivity|]). reflexivity. Qed.

(** ** The budget warning *)

Lemma ltb_zero_not_leb b : PrimFloat.ltb 0 b = true -> PrimFloat.leb b 0 = false.
Proof.
  rewrite ltb_spec, leb_spec. unfold SFltb, SFleb.
  change (Prim2SF 0) with (S754_zero false).
  destruct (Prim2SF b) as [s|s| |s m e]; simpl; try destruct s; simpl; congruence.
Qed.

Lemma not_leb_zero_ltb b t :
  PrimFloat.leb b 0 = false -> PrimFloat.ltb b t = true -> PrimFloat.ltb 0 b = true.
Proof.
  rewrite !ltb_spec, leb_spec. unfold SFltb, SFleb.
  change (Prim2SF 0) with (S754_zero false).
  destruct (Prim2SF b) as [s|s| |s m e], (Prim2SF t) as [s'|s'| |s' m' e']; simpl;
    try destruct s; try destruct s'; simpl; congruence.
Qed.

Lemma sumForMonth_monthTotal st mk : sumForMonth st mk "" = monthTotal st mk.
Proof.
  unfold sumForMonth, monthTotal. generalize 0%float.
  induction (Expenses st) as [|e l IH]; intros acc; simpl; [reflexivity|].
  destruct (monthKeyFromDate (Date e)) as [k|] eqn:Hk.
  - destruct (String.eqb_spec k mk) as [->|Hne]; simpl.
    + rewrite bool_decide_true by reflexivity. simpl. apply IH.
    + rewrite bool_decide_false by congruence. apply IH.
  - rewrite bool_decide_false by congruence. apply IH.
Qed.

Lemma warnIfBudgetExceeded_In st date mk b t :
  In (OutWarning mk b t) (warnIfBudgetExceeded st date "") <-> overBudget st date mk b t.
Proof.
  unfold warnIfBudgetExceeded, overBudget.
  destruct (monthKeyFromDate date) as [mk0|]; [|split; [intros [] | intros [? _]; discriminate]].
  destruct (budgetOf st mk0) as [b0|] eqn:Hb.
  2:{ split; [intros [] | intros ([= <-] & H & _)]. rewrite Hb in H. discriminate. }
  rewrite sumForMonth_monthTotal.
  destruct (PrimFloat.leb b0 0) eqn:Hle.
  { split; [intros [] | intros ([= <-] & H & Hpos & _)].
    rewrite Hb in H. injection H as <-. apply ltb_zero_not_leb in Hpos. congruence. }
  destruct (PrimFloat.ltb b0 (monthTotal st mk0)) eqn:Hlt.
  - split.
    + intros [[= <- <- <-]|[]]. repeat split; try assumption.
      eapply not_leb_zero_ltb; eassumption.
    + intros ([= <-] & H & _ & -> & _). rewrite Hb in H. injection H as <-. left. reflexivity.
  - split; [intros [] | intros ([= <-] & H & _ & -> & Hgt)].
    rewrite Hb in H. injection H as <-. congruence.
Qed.

Lemma In_after_head (x : output) (l : list output) :
  (forall mk b t, x <> OutWarning mk b t) ->
  forall mk b t, In (OutWarning mk b t) (x :: l) <-> In (OutWarning mk b t) l.
Proof.
  intros Hx mk b t. simpl. split; [intros [H|H]; [destruct (Hx _ _ _ H) | exact H] | auto].
Qed.

(** C5: after a successful add or update the warning is printed if and
    only if a budget above zero is set for the month-key of the expense
    and the amounts of all expenses of that month-key, of any category,
    add up to more than it; the store with the change is on disk
    whether or not it is printed.  With a budget of 50 for August 2025,
    adding 40 and then 20 dated in that month prints no warning at the
    first add and, at the second, the warning with budget $50.00 and
    spent $60.00. *)
Theorem budget_warning :
  (forall env f d,
     err (cmdAdd env f d) = None ->
     exists st e,
       mem (cmdAdd env f d) = Some st
       /\ stored (disk (cmdAdd env f d)) = Some st
       /\ last (Expenses st) = Some e
       /\ forall mk b t,
            In (OutWarning mk b t) (printed (cmdAdd env f d)) <-> overBudget st (Date e) mk b t)
  /\ (forall env f d,
        err (cmdUpdate env f d) = None ->
        exists st i e,
          mem (cmdUpdate env f d) = Some st
          /\ stored (disk (cmdUpdate env f d)) = Some st
          /\ Expenses st !! i = Some e /\ ID e = default 0 (upd_id f)
          /\ forall mk b t,
               In (OutWarning mk b t) (printed (cmdUpdate env f d))
               <-> overBudget st (Date e) mk b t)
  /\ (let d1 := runAll [(Sample.env, Budget Sample.budgetFifty)] freshDisk in
      let r1 := cmdAdd Sample.env Sample.addFuel d1 in
      let r2 := cmdAdd Sample.env Sample.addBook (disk r1) in
      printed r1 = [OutAdded 1]
      /\ printed r2 = [OutAdded 2; OutWarning "2025-08" 50 60]
      /\ Fixed2.Sprintf 50 = "50.00" /\ Fixed2.Sprintf 60 = "60.00"
      /\ err r2 = None
      /\ (fun st => map Amount (Expenses st)) <$> stored (disk r2)
           = Some [40%float; 20%float]).
Proof.
  split; [|split].
  - intros env f d Hok.
    destruct (cmdAdd_success _ _ _ Hok) as (st0 & dt & k & e & st & Hl & _ & He & Hst & Hs & Hm & Hp).
    pose proof (loadStore_typed _ _ _ Hl) as Ht.
    assert (Hmut : Mutation st0 st). { subst st. apply MutAdd. subst e. reflexivity. }
    exists st, e. split; [exact Hm|].
    split; [exact (proj1 (save_stored _ _ _ _ (Mutation_typed _ _ Ht Hmut) Hs))|].
    split; [subst st; simpl; apply last_snoc|].
    intros mk b t. rewrite Hp, In_after_head by (intros; discriminate).
    replace (Date e) with dt by (subst e; reflexivity).
    apply warnIfBudgetExceeded_In.
  - intros env f d Hok.
    destruct (cmdUpdate_success _ _ _ Hok)
      as (st0 & i & g & st & Hl & Hf & Hg & _ & Hst & Hs & Hm & Hp).
    pose proof (loadStore_typed _ _ _ Hl) as Ht.
    destruct (findByID_Some _ _ _ Hf) as (e0 & He0 & Hid).
    assert (Hmut : Mutation st0 st). { subst st. apply MutUpdate. exact Hg. }
    assert (He : Expenses st !! i = Some (g e0)).
    { subst st. apply assign_lookup. exact He0. }
    exists st, i, (g e0). split; [exact Hm|].
    split; [exact (proj1 (save_stored _ _ _ _ (Mutation_typed _ _ Ht Hmut) Hs))|].
    split; [exact He|]. split; [rewrite Hg; exact Hid|].
    intros mk b t. rewrite Hp, In_after_head by (intros; discriminate).
    rewrite He. simpl. apply warnIfBudgetExceeded_In.
  - vm_compute. repeat split.
Qed.

(** ** Queries *)

Lemma ascii_compare_trans a b c o :
  Ascii.compare a b = o -> Ascii.compare b c = o -> Ascii.compare a c = o.
Proof.
  unfold Ascii.compare. destruct o; intros H1 H2.
  - apply N.compare_eq_iff in H1, H2. apply N.compare_eq_iff. congruence.
  - apply N.compare_lt_iff in H1. apply N.compare_lt_iff in H2.
    apply N.compare_lt_iff. eapply N.lt_trans; eassumption.
  - apply N.compare_gt_iff in H1. apply N.compare_gt_iff in H2.
    apply N.compare_gt_iff. eapply N.lt_trans; eassumption.
Qed.

Lemma string_lt_trans a b c :
  String.compare a b = Lt -> String.compare b c = Lt -> String.compare a c = Lt.
Proof.
  revert b c. induction a as [|x a IH]; intros [|y b] [|z c]; simpl; try congruence.
  destruct (Ascii.compare x y) eqn:Hxy, (Ascii.compare y z) eqn:Hyz; try congruence.
  - rewrite (ascii_compare_trans _ _ _ _ Hxy Hyz). apply IH.
  - apply Ascii.compare_eq_iff in Hxy. subst y. rewrite Hyz. reflexivity.
  - apply Ascii.compare_eq_iff in Hyz. subst z. rewrite Hxy. reflexivity.
  - rewrite (ascii_compare_trans _ _ _ _ Hxy Hyz). reflexivity.
Qed.

Lemma string_not_lt a b :
  Strings.lt a b = false -> Strings.lt b a = true \/ a = b.
Proof.
  unfold Strings.lt. destruct (String.compare a b) eqn:E; intros H; try discriminate.
  - right. apply String.compare_eq_iff. exact E.
  - left. rewrite String.compare_antisym, E. reflexivity.
Qed.

Lemma dateThenID_trans a b c : dateThenID a b -> dateThenID b c -> dateThenID a c.
Proof.
  unfold dateThenID, Strings.lt.
  intros [H1|[E1 H1]] [H2|[E2 H2]].
  - left. destruct (String.compare (Date a) (Date b)) eqn:Hab; try discriminate.
    destruct (String.compare (Date b) (Date c)) eqn:Hbc; try discriminate.
    rewrite (string_lt_trans _ _ _ Hab Hbc). reflexivity.
  - left. rewrite <- E2. exact H1.
  - left. rewrite E1. exact H2.
  - right. split; [congruence | lia].
Qed.

Lemma less_true a b : less a b = true -> dateThenID a b.
Proof.
  unfold less, dateThenID. intros H. apply orb_true_iff in H as [H|H]; [left; exact H|].
  apply andb_true_iff in H as [E H]. apply String.eqb_eq in E. apply Z.ltb_lt in H.
  right. split; [exact E | lia].
Qed.

(** What [sort.Slice] relies on: of two elements, one not [less] than
    the other may follow it. *)
Lemma less_false a b : less a b = false -> dateThenID b a.
Proof.
  unfold less, dateThenID. intros H. apply orb_false_iff in H as [Hlt H].
  apply string_not_lt in Hlt as [Hlt|E]; [left; exact Hlt|].
  right. split; [congruence|].
  rewrite (proj2 (String.eqb_eq _ _) E) in H. simpl in H. apply Z.ltb_ge in H. exact H.
Qed.

Lemma insertSorted_perm x l : Permutation (insertSorted x l) (x :: l).
Proof.
  induction l as [|y r IH]; simpl; [reflexivity|].
  destruct (less y x); [|reflexivity].
  rewrite IH. apply perm_swap.
Qed.

Lemma sortSlice_perm l : Permutation (sortSlice l) l.
Proof.
  induction l as [|x l IH]; simpl; [reflexivity|].
  rewrite insertSorted_perm. constructor. exact IH.
Qed.

Lemma insertSorted_sorted x l :
  StronglySorted dateThenID l -> StronglySorted dateThenID (insertSorted x l).
Proof.
  induction l as [|y r IH]; intros Hs; simpl.
  - constructor; constructor.
  - inversion Hs as [|? ? Hr Hy]; subst.
    destruct (less y x) eqn:E.
    + constructor; [apply IH; exact Hr|].
      rewrite insertSorted_perm. constructor; [apply less_true; exact E | exact Hy].
    + apply less_false in E. constructor; [exact Hs|].
      constructor; [exact E|].
      eapply Forall_impl; [exact Hy|]. simpl. intros z Hz. eapply dateThenID_trans; eassumption.
Qed.

Lemma sortSlice_sorted l : StronglySorted dateThenID (sortSlice l).
Proof.
  induction l as [|x l IH]; simpl; [constructor|]. apply insertSorted_sorted. exact IH.
Qed.



(** C8: with a month and no year, [cmdList] and [cmdExport] filter on
    the year the host clock shows; and for the same month, year and
    category flags and the same data file the count [cmdExport] reports,
    and the records it writes under the header, are as many as the rows
    [cmdList] prints: both are the result of [filterExpenses]. *)
Theorem list_export_agree (env : Env) (d : Disk) (st : Store)
    (category : option string) (month year : option Z) (out : option string)
    (Hload : loadStore env d = inr st)
    (Hmonth : default 0 month = 0 \/ 1 <= default 0 month <= 12)
    (Hcreate : create_ok env (default "expenses.csv" out) = true) :
  let y := if (0 <? default 0 month) && (default 0 year =? 0)
           then Time.Year (clock env 0) else default 0 year in
  let items := filterExpenses st (default 0 month) y (Strings.TrimSpace (default "" category)) in
  let rl := cmdList env {| list_category := category; list_month := month;
                           list_year := year |} d in
  let re := cmdExport env {| exp_output := out; exp_category := category;
                             exp_month := month; exp_year := year |} d in
  err rl = None /\ err re = None
  /\ printed rl = printTable items
  /\ length (printed rl) = (2 + length items)%nat
  /\ printed re = [OutExported (Z.of_nat (length items)) (default "expenses.csv" out)]
  /\ exists records,
       csv_files (disk re) !! default "expenses.csv" out = Some (csvHeader :: records)
       /\ records = map csvRecord items
       /\ length records = length items.
Proof.
  intros y items rl re.
  assert (Hm : negb (default 0 month =? 0) && ((default 0 month <? 1) || (12 <? default 0 month))
               = false).
  { destruct Hmonth as [->|[H1 H2]]; [reflexivity|].
    apply Z.ltb_ge in H1. apply Z.ltb_ge in H2. rewrite H1, H2. apply andb_false_r. }
  assert (Hl : rl = {| printed := printTable items; err := None; mem := Some st; disk := d |}).
  { unfold rl, cmdList. simpl. rewrite Hload, Hm. reflexivity. }
  assert (He : re = {| printed := [OutExported (Z.of_nat (length items)) (default "expenses.csv" out)];
                       err := None; mem := Some st;
                       disk := {| data_file := data_file d;
                                  csv_files := <[default "expenses.csv" out :=
                                                   csvHeader :: map csvRecord items]> (csv_files d) |} |}).
  { unfold re, cmdExport. simpl. rewrite Hload, Hm, Hcreate. reflexivity. }
  rewrite Hl, He. simpl.
  repeat (split; [reflexivity|]).
  split; [unfold printTable; simpl; rewrite length_map; reflexivity|].
  split; [reflexivity|].
  exists (map csvRecord items). rewrite lookup_insert_eq, length_map. auto.
Qed.

Lemma list_export_agree_witness :
  err (cmdList Sample.env {| list_category := None; list_month := Some 8;
                             list_year := None |} Sample.disk) = None
  /\ printed (cmdExport Sample.env {| exp_output := None; exp_category := None;
                                     exp_month := Some 8; exp_year := None |} Sample.disk)
     = [OutExported 1 "expenses.csv"].
Proof.
  destruct (list_export_agree Sample.env Sample.disk Sample.store None (Some 8) None None
              eq_refl (or_intror (conj (Zle_bool_imp_le 1 8 eq_refl) (Zle_bool_imp_le 8 12 eq_refl)))
              eq_refl)
    as (H1 & _ & _ & _ & H2 & _).
  split; [exact H1 | exact H2].
Defined.

(** ** When add succeeds *)



Lemma budget_warning_witness :
  exists st e,
    mem (cmdAdd Sample.env Sample.addBook Sample.disk) = Some st
    /\ stored (disk (cmdAdd Sample.env Sample.addBook Sample.disk)) = Some st
    /\ last (Expenses st) = Some e
    /\ forall mk b t,
         In (OutWarning mk b t) (printed (cmdAdd Sample.env Sample.addBook Sample.disk))
         <-> overBudget st (Date e) mk b t.
Proof. exact (proj1 budget_warning Sample.env Sample.addBook Sample.disk eq_refl). Defined.

(** ** Runs of the program *)

(** Two adds, the first expense deleted, a third add: it gets the ID 3. *)
Example delete_then_add :
  let d := runAll [(Sample.env, Add Sample.addFuel); (Sample.env, Add Sample.addBook);
                   (Sample.env, Delete (Some 1))] freshDisk in
  printed (cmdAdd Sample.env Sample.addFuel d) = [OutAdded 3]
  /\ (fun st => map ID (Expenses st)) <$> stored (disk (cmdAdd Sample.env Sample.addFuel d))
     = Some [2; 3].
Proof. vm_compute. split; reflexivity. Qed.

(** At the largest [int] the counter wraps to the smallest: the bound
    on the counter in the statements above is needed. *)
Example counter_wraps :
  NextID <$> loaded Sample.lastCounterDisk = Some Int.max_int
  /\ NextID <$> mem (cmdAdd Sample.env Sample.addFuel Sample.lastCounterDisk) = Some Int.min_int.
Proof. vm_compute. split; reflexivity. Qed.

(** A category that differs in the case of its letters matches. *)
Example filter_ignores_case :
  filterExpenses Sample.store 0 0 "fOOD" = [Sample.lunch]
  /\ filterExpenses Sample.store 8 2025 "FOOD" = [Sample.lunch]
  /\ filterExpenses Sample.store 7 0 "" = [].
Proof. vm_compute. repeat split. Qed.

(** An amount that is not a number passes the check of [cmdAdd] and is
    refused by the encoder: nothing is saved. *)
Example add_nan_not_saved :
  let r := cmdAdd Sample.env {| add_description := Some "x"; add_amount := Some PrimFloat.nan;
                                add_date := None; add_category := None |} freshDisk in
  err r = Some PersistenceError /\ disk r = freshDisk.
Proof. vm_compute. split; reflexivity. Qed.

(** * Further properties of the commands *)

(** ** Finding an expense *)

Lemma findIndex_first id l k i :
  findIndex id l k = Some i ->
  (k <= i)%nat
  /\ exists e, l !! (i - k)%nat = Some e /\ ID e = id
               /\ forall j e', (j < i - k)%nat -> l !! j = Some e' -> ID e' <> id.
Proof.
  revert k. induction l as [|x l IH]; intros k H; simpl in H; [discriminate|].
  destruct (Z.eqb_spec (ID x) id) as [E|E].
  - injection H as <-. split; [lia|]. exists x. rewrite Nat.sub_diag.
    repeat split; [exact E|]. intros j e' Hj. lia.
  - apply IH in H as (Hk & e & Hl & He & Hfirst). split; [lia|]. exists e.
    replace (i - k)%nat with (S (i - S k)) by lia. simpl. repeat split; [assumption..|].
    intros [|j] e' Hj Hl'; simpl in Hl'.
    + injection Hl' as <-. exact E.
    + apply (Hfirst j e'); [lia | exact Hl'].
Qed.

Lemma findIndex_None id l k :
  findIndex id l k = None <-> Forall (fun e => ID e <> id) l.
Proof.
  revert k. induction l as [|x l IH]; intros k; simpl.
  - split; [constructor | reflexivity].
  - destruct (Z.eqb_spec (ID x) id) as [E|E].
    + split; [discriminate|]. intros H. inversion H; subst. contradiction.
    + rewrite IH. split; [intros H; constructor; assumption|].
      intros H. inversion H; assumption.
Qed.

(** X1: [findByID] returns the position of the first expense with the
    ID, and nothing exactly when no expense has it. *)
Theorem findByID_first (st : Store) (id : Z) :
  match findByID st id with
  | Some i =>
      exists e, Expenses st !! i = Some e /\ ID e = id
                /\ forall j e', (j < i)%nat -> Expenses st !! j = Some e' -> ID e' <> id
  | None => Forall (fun e => ID e <> id) (Expenses st)
  end.
Proof.
  unfold findByID. destruct (findIndex id (Expenses st) 0) as [i|] eqn:H.
  - apply findIndex_first in H as (_ & e & Hl & He & Hfirst).
    rewrite Nat.sub_0_r in Hl, Hfirst. exists e. auto.
  - apply findIndex_None in H. exact H.
Qed.

(** ** delete *)





(** X3: [cmdUpdate] and [cmdDelete] of an ID above zero that no expense
    of the store has fail with the not-found error, print nothing and
    leave the disk as it was. *)
Theorem unknown_id_not_found (env : Env) (d : Disk) (st : Store) (id : Z)
    (Hload : loadStore env d = inr st) (Hid : 0 < id)
    (Hnone : Forall (fun e => ID e <> id) (Expenses st)) :
  (forall f, upd_id f = Some id ->
     cmdUpdate env f d = {| printed := []; err := Some (NotFoundError id);
                            mem := Some st; disk := d |})
  /\ cmdDelete env (Some id) d = {| printed := []; err := Some (NotFoundError id);
                                    mem := Some st; disk := d |}.
Proof.
  assert (Hf : findByID st id = None) by (apply findIndex_None; exact Hnone).
  apply Z.leb_gt in Hid. split.
  - intros f Hflag. unfold cmdUpdate. rewrite Hflag. simpl. rewrite Hid, Hload, Hf. reflexivity.
  - unfold cmdDelete. simpl. rewrite Hid, Hload, Hf. reflexivity.
Qed.

Lemma unknown_id_not_found_witness :
  cmdDelete Sample.env (Some 7) Sample.disk
  = {| printed := []; err := Some (NotFoundError 7); mem := Some Sample.store;
       disk := Sample.disk |}.
Proof.
  refine (proj2 (unknown_id_not_found Sample.env Sample.disk Sample.store 7 eq_refl eq_refl _)).
  constructor; [discriminate | constructor].
Defined.

(** ** Errors and queries leave the disk alone *)




(** ** Sums *)


(** ** The category of a query *)





(** ** The listing *)

Lemma length_substring_prefix n s :
  (n <= String.length s)%nat -> String.length (String.substring 0 n s) = n.
Proof.
  revert s. induction n as [|n IH]; intros [|c s] H; simpl in *; try reflexivity; try lia.
  f_equal. apply IH. lia.
Qed.

Lemma length_string_append a b :
  String.length (a +:+ b) = (String.length a + String.length b)%nat.
Proof. induction a as [|c a IH]; simpl; [reflexivity | f_equal; exact IH]. Qed.

Lemma length_truncate limit s :
  (3 <= limit)%nat -> (String.length (truncate limit s) <= limit)%nat.
Proof.
  intros H. unfold truncate. destruct (Nat.ltb_spec limit (String.length s)); [|lia].
  rewrite length_string_append, length_substring_prefix by lia. simpl. lia.
Qed.

(** X8: [printTable] prints two heading lines and one row for each
    expense, in order; a description of more than 32 bytes is cut to 29
    and three dots and a category of more than 14 to 11 and three dots,
    so that neither exceeds its column, and shorter ones are printed as
    they are. *)
Theorem printTable_rows (expenses : list Expense) :
  exists rows,
    printTable expenses = OutTableHead :: OutTableRule :: rows
    /\ length rows = length expenses
    /\ forall i e, expenses !! i = Some e ->
         exists desc cat,
           rows !! i = Some (OutTableRow (ID e) (Date e) desc cat (Amount e))
           /\ (String.length desc <= 32)%nat /\ (String.length cat <= 14)%nat
           /\ ((String.length (Description e) <= 32)%nat -> desc = Description e)
           /\ ((String.length (Category e) <= 14)%nat -> cat = Category e)
           /\ ((32 < String.length (Description e))%nat ->
                 desc = String.substring 0 29 (Description e) +:+ "...")
           /\ ((14 < String.length (Category e))%nat ->
                 cat = String.substring 0 11 (Category e) +:+ "...").
Proof.
  eexists. split; [reflexivity|]. split; [apply length_map|].
  intros i e He. exists (truncate 32 (Description e)), (truncate 14 (Category e)).
  split; [rewrite list_lookup_fmap, He; reflexivity|].
  split; [apply length_truncate; lia|]. split; [apply length_truncate; lia|].
  unfold truncate.
  repeat split; intros H.
  - destruct (Nat.ltb_spec 32 (String.length (Description e))); [lia | reflexivity].
  - destruct (Nat.ltb_spec 14 (String.length (Category e))); [lia | reflexivity].
  - destruct (Nat.ltb_spec 32 (String.length (Description e))); [reflexivity | lia].
  - destruct (Nat.ltb_spec 14 (String.length (Category e))); [reflexivity | lia].
Qed.

(** ** Dates *)

Lemma digit_cases c :
  Date.isDigit c = true -> 0 <= Date.digit c <= 9 /\ digitChar (Date.digit c) = c.
Proof.
  destruct c as [[] [] [] [] [] [] [] []]; intros H; cbv in H; try discriminate H;
    (split; [cbv; split; discriminate | reflexivity]).
Qed.

Lemma digitChar_digit a : 0 <= a <= 9 -> Date.isDigit (digitChar a) = true /\ Date.digit (digitChar a) = a.
Proof.
  intros H. assert (E : a = 0 \/ a = 1 \/ a = 2 \/ a = 3 \/ a = 4 \/ a = 5 \/ a = 6
                        \/ a = 7 \/ a = 8 \/ a = 9) by lia.
  repeat (destruct E as [->|E]; [split; reflexivity|]). subst a. split; reflexivity.
Qed.

Lemma in_digits a : 0 <= a <= 9 -> In a [0; 1; 2; 3; 4; 5; 6; 7; 8; 9].
Proof. intros H. simpl. lia. Qed.

Lemma pad0_2_digits a b :
  0 <= a <= 9 -> 0 <= b <= 9 ->
  Fmt.pad0 2 (a * 10 + b) = String (digitChar a) (String (digitChar b) "").
Proof.
  intros Ha Hb.
  assert (Hall : forallb (fun a => forallb (fun b =>
            String.eqb (Fmt.pad0 2 (a * 10 + b)) (String (digitChar a) (String (digitChar b) "")))
            [0; 1; 2; 3; 4; 5; 6; 7; 8; 9]) [0; 1; 2; 3; 4; 5; 6; 7; 8; 9] = true)
    by (vm_compute; reflexivity).
  apply String.eqb_eq.
  apply (proj1 (forallb_forall _ _) (proj1 (forallb_forall _ _) Hall a (in_digits a Ha)) b
           (in_digits b Hb)).
Qed.

Lemma pad0_4_digits a b c d :
  0 <= a <= 9 -> 0 <= b <= 9 -> 0 <= c <= 9 -> 0 <= d <= 9 ->
  Fmt.pad0 4 (a * 1000 + b * 100 + c * 10 + d)
  = String (digitChar a) (String (digitChar b) (String (digitChar c) (String (digitChar d) ""))).
Proof.
  intros Ha Hb Hc Hd.
  assert (Hall : forallb (fun a => forallb (fun b => forallb (fun c => forallb (fun d =>
            String.eqb (Fmt.pad0 4 (a * 1000 + b * 100 + c * 10 + d))
              (String (digitChar a) (String (digitChar b)
                 (String (digitChar c) (String (digitChar d) "")))))
            [0; 1; 2; 3; 4; 5; 6; 7; 8; 9]) [0; 1; 2; 3; 4; 5; 6; 7; 8; 9])
            [0; 1; 2; 3; 4; 5; 6; 7; 8; 9]) [0; 1; 2; 3; 4; 5; 6; 7; 8; 9] = true)
    by (vm_compute; reflexivity).
  apply String.eqb_eq.
  apply (proj1 (forallb_forall _ _)
           (proj1 (forallb_forall _ _)
              (proj1 (forallb_forall _ _)
                 (proj1 (forallb_forall _ _) Hall a (in_digits a Ha)) b (in_digits b Hb))
              c (in_digits c Hc)) d (in_digits d Hd)).
Qed.

Lemma parse_chars y1 y2 y3 y4 m1 m2 d1 d2 :
  Date.parse (String y1 (String y2 (String y3 (String y4 (String "-"
                (String m1 (String m2 (String "-" (String d1 (String d2 ""))))))))))
  = if forallb Date.isDigit [y1; y2; y3; y4; m1; m2; d1; d2] then
      let y := Date.digit y1 * 1000 + Date.digit y2 * 100 + Date.digit y3 * 10 + Date.digit y4 in
      let m := Date.digit m1 * 10 + Date.digit m2 in
      let d := Date.digit d1 * 10 + Date.digit d2 in
      if (m <=? 0) || (12 <? m) then None
      else if (d <? 1) || (Date.daysIn m y <? d) then None
      else Some {| Date.year := y; Date.month := m; Date.day := d |}
    else None.
Proof. reflexivity. Qed.

(** The shape of a text that parses. *)
Lemma parse_shape s t :
  Date.parse s = Some t ->
  exists y1 y2 y3 y4 m1 m2 d1 d2,
    s = String y1 (String y2 (String y3 (String y4 (String "-"
          (String m1 (String m2 (String "-" (String d1 (String d2 ""))))))))).
Proof.
  intros H.
  destruct s as [|y1 s]; [discriminate H|]. destruct s as [|y2 s]; [discriminate H|].
  destruct s as [|y3 s]; [discriminate H|]. destruct s as [|y4 s]; [discriminate H|].
  destruct s as [|c5 s]; [discriminate H|].
  assert (E5 : c5 = "-"%char).
  { destruct c5 as [[] [] [] [] [] [] [] []]; simpl in H; try discriminate H; reflexivity. }
  subst c5.
  destruct s as [|m1 s]; [discriminate H|]. destruct s as [|m2 s]; [discriminate H|].
  destruct s as [|c8 s]; [discriminate H|].
  assert (E8 : c8 = "-"%char).
  { destruct c8 as [[] [] [] [] [] [] [] []]; simpl in H; try discriminate H; reflexivity. }
  subst c8.
  destruct s as [|d1 s]; [discriminate H|]. destruct s as [|d2 s]; [discriminate H|].
  destruct s as [|? ?]; [|discriminate H]. eauto 10.
Qed.

Lemma parse_valid s t :
  Date.parse s = Some t ->
  validDate t /\ Date.format t = s /\ Date.formatMonth t = String.substring 0 7 s.
Proof.
  intros H. destruct (parse_shape _ _ H) as (y1 & y2 & y3 & y4 & m1 & m2 & d1 & d2 & ->).
  rewrite parse_chars in H.
  destruct (forallb Date.isDigit [y1; y2; y3; y4; m1; m2; d1; d2]) eqn:Hd; [|discriminate].
  simpl in Hd. repeat (apply andb_true_iff in Hd as [? Hd]).
  destruct (digit_cases y1) as [? E1]; [assumption|].
  destruct (digit_cases y2) as [? E2]; [assumption|].
  destruct (digit_cases y3) as [? E3]; [assumption|].
  destruct (digit_cases y4) as [? E4]; [assumption|].
  destruct (digit_cases m1) as [? E5]; [assumption|].
  destruct (digit_cases m2) as [? E6]; [assumption|].
  destruct (digit_cases d1) as [? E7]; [assumption|].
  destruct (digit_cases d2) as [? E8]; [assumption|].
  cbv zeta in H.
  destruct ((_ <=? 0) || (12 <? _)) eqn:Hm in H; [discriminate|].
  destruct ((_ <? 1) || (_ <? _)) eqn:Hday in H; [discriminate|].
  injection H as <-.
  apply orb_false_iff in Hm as [Hm1 Hm2]. apply orb_false_iff in Hday as [Hd1 Hd2].
  apply Z.leb_gt in Hm1. apply Z.ltb_ge in Hm2, Hd1, Hd2.
  split; [|split].
  - unfold validDate. simpl. lia.
  - unfold Date.format. simpl Date.year. simpl Date.month. simpl Date.day.
    rewrite pad0_4_digits, !pad0_2_digits by assumption.
    rewrite E1, E2, E3, E4, E5, E6, E7, E8. reflexivity.
  - unfold Date.formatMonth. simpl Date.year. simpl Date.month.
    rewrite pad0_4_digits, !pad0_2_digits by assumption.
    rewrite E1, E2, E3, E4, E5, E6. reflexivity.
Qed.

Lemma format_parse t : validDate t -> Date.parse (Date.format t) = Some t.
Proof.
  intros (Hy & Hm & Hd). destruct t as [y m d]. simpl in *.
  assert (Hdays : Date.daysIn m y <= 31).
  { unfold Date.daysIn. repeat destruct (_ =? _); simpl; try destruct (Date.isLeap y); lia. }
  pose proof (Z.div_mod y 10 ltac:(lia)) as Q1.
  pose proof (Z.mod_pos_bound y 10 ltac:(lia)) as R1.
  pose proof (Z.div_mod (y / 10) 10 ltac:(lia)) as Q2.
  pose proof (Z.mod_pos_bound (y / 10) 10 ltac:(lia)) as R2.
  pose proof (Z.div_mod (y / 10 / 10) 10 ltac:(lia)) as Q3.
  pose proof (Z.mod_pos_bound (y / 10 / 10) 10 ltac:(lia)) as R3.
  set (a := y / 10 / 10 / 10) in *. set (b := y / 10 / 10 mod 10) in *.
  set (c := y / 10 mod 10) in *. set (e := y mod 10) in *.
  assert (Ey : y = a * 1000 + b * 100 + c * 10 + e) by lia.
  assert (Ha : 0 <= a <= 9) by lia.
  assert (Hb : 0 <= b <= 9) by lia.
  assert (Hc : 0 <= c <= 9) by lia.
  assert (He : 0 <= e <= 9) by lia.
  clear Q1 R1 Q2 R2 Q3 R3.
  pose proof (Z.div_mod m 10 ltac:(lia)) as Q1.
  pose proof (Z.mod_pos_bound m 10 ltac:(lia)) as R1.
  pose proof (Z.div_mod d 10 ltac:(lia)) as Q2.
  pose proof (Z.mod_pos_bound d 10 ltac:(lia)) as R2.
  set (m1 := m / 10) in *. set (m2 := m mod 10) in *.
  set (d1 := d / 10) in *. set (d2 := d mod 10) in *.
  assert (Em : m = m1 * 10 + m2) by lia.
  assert (Ed : d = d1 * 10 + d2) by lia.
  assert (Hm1 : 0 <= m1 <= 9) by lia.
  assert (Hm2 : 0 <= m2 <= 9) by lia.
  assert (Hd1 : 0 <= d1 <= 9) by lia.
  assert (Hd2 : 0 <= d2 <= 9) by lia.
  clear Q1 R1 Q2 R2.
  clearbody a b c e m1 m2 d1 d2.
  unfold Date.format. simpl Date.year. simpl Date.month. simpl Date.day.
  rewrite Ey at 1. rewrite Em at 1. rewrite Ed at 1.
  rewrite pad0_4_digits, !pad0_2_digits by assumption.
  change (Date.parse
    (String (digitChar a) (String (digitChar b) (String (digitChar c) (String (digitChar e)
       (String "-" (String (digitChar m1) (String (digitChar m2)
          (String "-" (String (digitChar d1) (String (digitChar d2) ""))))))))))
    = Some {| Date.year := y; Date.month := m; Date.day := d |}).
  rewrite parse_chars. cbv [forallb].
  destruct (digitChar_digit a Ha) as [-> ->]. destruct (digitChar_digit b Hb) as [-> ->].
  destruct (digitChar_digit c Hc) as [-> ->]. destruct (digitChar_digit e He) as [-> ->].
  destruct (digitChar_digit m1 Hm1) as [-> ->]. destruct (digitChar_digit m2 Hm2) as [-> ->].
  destruct (digitChar_digit d1 Hd1) as [-> ->]. destruct (digitChar_digit d2 Hd2) as [-> ->].
  cbv [andb]. cbv zeta. rewrite <- Ey, <- Em, <- Ed.
  replace ((m <=? 0) || (12 <? m)) with false
    by (symmetry; apply orb_false_iff; split; [apply Z.leb_gt | apply Z.ltb_ge]; lia).
  replace ((d <? 1) || (Date.daysIn m y <? d)) with false
    by (symmetry; apply orb_false_iff; split; apply Z.ltb_ge; lia).
  reflexivity.
Qed.

(** X9: the month-key of a date that parses is the first seven bytes of
    its text, and a date that does not parse has none; a text that
    parses is the ten-byte form of a date of the calendar, which
    formatted gives the text back. *)
Theorem monthKeyFromDate_prefix (s : string) :
  match Date.parse s with
  | Some t =>
      monthKeyFromDate s = Some (String.substring 0 7 s)
      /\ String.length s = 10%nat /\ validDate t /\ Date.format t = s
  | None => monthKeyFromDate s = None
  end.
Proof.
  unfold monthKeyFromDate. destruct (Date.parse s) as [t|] eqn:H; [|reflexivity].
  destruct (parse_valid _ _ H) as (Hv & Hf & Hm).
  destruct (parse_shape _ _ H) as (y1 & y2 & y3 & y4 & m1 & m2 & d1 & d2 & E).
  simpl. rewrite Hm. split; [reflexivity|]. split; [rewrite E; reflexivity|]. auto.
Qed.


Lemma validClock_sample : validClock Sample.env.
Proof. intros k. unfold validDate. simpl. vm_compute. repeat split; discriminate. Qed.


(** ** update, field by field *)

Lemma assign_insert i g st e e' :
  Expenses st !! i = Some e -> g e = e' ->
  assign i g st = set_Expenses (<[i := e']> (Expenses st)) st.
Proof.
  intros He <-. unfold assign. f_equal. revert i He.
  induction (Expenses st) as [|x l IH]; intros [|i] He; simpl in *; try discriminate.
  - injection He as ->. reflexivity.
  - f_equal. apply IH. exact He.
Qed.

Ltac update_result st0 i e He Hl Hf Hdesc Hamt Hdate Hcat :=
  match goal with
  | |- context [save ?env ?S ?d] =>
      let Hs := fresh "Hs" in
      let ES := fresh "ES" in
      assert (ES : S = set_Expenses (<[i := updated env _ e]> (Expenses st0)) st0)
        by (rewrite ?assign_assign; apply (assign_insert _ _ _ _ _ He);
            unfold updated; rewrite ?Hdesc, ?Hamt, ?Hdate, ?Hcat; destruct e; reflexivity);
      rewrite ES; clear ES;
      destruct (save env (set_Expenses (<[i := updated env _ e]> (Expenses st0)) st0) d)
        as [?|?] eqn:Hs; [discriminate|];
      intros _; exists st0, i, e;
      split; [reflexivity|]; split; [exact Hf|]; split; [exact He|];
      split; [reflexivity|]; split; [exact Hs|];
      simpl; rewrite list_lookup_insert_eq by (eapply lookup_lt_Some; exact He);
      reflexivity
  end.

(** What a successful [cmdUpdate] saved: the store it loaded with the
    slot of the first expense with the ID rewritten by the flags. *)
Lemma cmdUpdate_result env f d :
  err (cmdUpdate env f d) = None ->
  exists st0 i e,
    loadStore env d = inr st0
    /\ findByID st0 (default 0 (upd_id f)) = Some i
    /\ Expenses st0 !! i = Some e
    /\ mem (cmdUpdate env f d)
       = Some (set_Expenses (<[i := updated env f e]> (Expenses st0)) st0)
    /\ save env (set_Expenses (<[i := updated env f e]> (Expenses st0)) st0) d
       = inr (disk (cmdUpdate env f d))
    /\ printed (cmdUpdate env f d)
       = OutUpdated
           :: warnIfBudgetExceeded
                (set_Expenses (<[i := updated env f e]> (Expenses st0)) st0)
                (Date (updated env f e)) "".
Proof.
  unfold cmdUpdate.
  destruct (default 0 (upd_id f) <=? 0) eqn:Hid; [discriminate|].
  destruct (loadStore env d) as [?|st0] eqn:Hl; [discriminate|].
  destruct (findByID st0 (default 0 (upd_id f))) as [i|] eqn:Hf; [|discriminate].
  destruct (findByID_Some _ _ _ Hf) as (e & He & _).
  destruct (String.eqb (Strings.TrimSpace (default "" (upd_description f))) "") eqn:Hdesc;
    (destruct (upd_amount f) as [v|] eqn:Hamt;
       [destruct (PrimFloat.leb v 0) eqn:Hv; [discriminate|]|]);
    (destruct (String.eqb (Strings.TrimSpace (default "" (upd_date f))) "") eqn:Hdate;
       [|destruct (Date.parse (default "" (upd_date f))) eqn:Hp; [|discriminate]]);
    destruct (String.eqb (Strings.TrimSpace (default "" (upd_category f))) "") eqn:Hcat;
    cbn [negb];
    update_result st0 i e He Hl Hf Hdesc Hamt Hdate Hcat.
Qed.





(** ** What the data file holds after any run *)

Lemma finite_positive a :
  PrimFloat.is_finite a = true -> PrimFloat.leb a 0 = false -> PrimFloat.ltb 0 a = true.
Proof.
  unfold PrimFloat.is_finite, PrimFloat.is_nan.
  rewrite ltb_spec, leb_spec, FloatAxioms.eqb_spec. unfold SFltb, SFleb, SFeqb.
  change (Prim2SF 0) with (S754_zero false).
  destruct (Prim2SF a) as [s|s| |s m e]; simpl; try destruct s; simpl; try congruence.
Qed.

Lemma save_finite env st d d' :
  save env st d = inr d' ->
  Forall (fun e => PrimFloat.is_finite (Amount e) = true) (Expenses st).
Proof.
  intros H. apply save_inr in H as (_ & _ & doc & Henc & _).
  unfold Json.encodeStore in Henc.
  destruct (mapM Json.encodeExpense (Expenses st)) as [docs|] eqn:E; [|discriminate].
  eapply encodeExpenses_finite; exact E.
Qed.

Lemma parseDateOrToday_inr env k s dt k' :
  validClock env -> parseDateOrToday env k s = (inr dt, k') -> is_Some (Date.parse dt).
Proof.
  intros Hclock. unfold parseDateOrToday.
  destruct (String.eqb (Strings.TrimSpace s) "").
  - intros [= <- _]. unfold Time.Format. rewrite (format_parse _ (Hclock k)). eauto.
  - destruct (Date.parse s) as [t|] eqn:H; intros [= <- _]. eauto.
Qed.

Lemma cmdAdd_checks env f d :
  err (cmdAdd env f d) = None ->
  Strings.TrimSpace (default "" (add_description f)) <> ""
  /\ PrimFloat.leb (default 0%float (add_amount f)) 0 = false.
Proof.
  unfold cmdAdd.
  destruct (String.eqb_spec (Strings.TrimSpace (default "" (add_description f))) "");
    [discriminate|].
  destruct (PrimFloat.leb (default 0%float (add_amount f)) 0); [discriminate|]. auto.
Qed.

Lemma cmdUpdate_checks env f d :
  err (cmdUpdate env f d) = None ->
  (forall v, upd_amount f = Some v -> PrimFloat.leb v 0 = false)
  /\ (Strings.TrimSpace (default "" (upd_date f)) = ""
      \/ is_Some (Date.parse (default "" (upd_date f)))).
Proof.
  unfold cmdUpdate.
  destruct (default 0 (upd_id f) <=? 0); [discriminate|].
  destruct (loadStore env d) as [?|st0]; [discriminate|].
  destruct (findByID st0 (default 0 (upd_id f))) as [i|]; [|discriminate].
  destruct (upd_amount f) as [v|].
  - destruct (PrimFloat.leb v 0) eqn:Hv; [discriminate|].
    destruct (String.eqb_spec (Strings.TrimSpace (default "" (upd_date f))) "") as [E|E];
      cbn [negb].
    + intros _. split; [intros v' [= <-]; exact Hv | left; exact E].
    + destruct (Date.parse (default "" (upd_date f))) as [t|]; [|discriminate].
      intros _. split; [intros v' [= <-]; exact Hv | right; eauto].
  - destruct (String.eqb_spec (Strings.TrimSpace (default "" (upd_date f))) "") as [E|E];
      cbn [negb].
    + intros _. split; [intros v' [=] | left; exact E].
    + destruct (Date.parse (default "" (upd_date f))) as [t|]; [|discriminate].
      intros _. split; [intros v' [=] | right; eauto].
Qed.

Lemma updated_sound env f e :
  soundExpense e ->
  (forall v, upd_amount f = Some v -> PrimFloat.leb v 0 = false) ->
  (Strings.TrimSpace (default "" (upd_date f)) = ""
   \/ is_Some (Date.parse (default "" (upd_date f)))) ->
  PrimFloat.is_finite (Amount (updated env f e)) = true ->
  soundExpense (updated env f e).
Proof.
  intros (Ha & Hd & Hdesc) Hv Hdate Hfin. unfold soundExpense, updated in *. simpl in *.
  split; [|split].
  - destruct (upd_amount f) as [v|]; [|exact Ha].
    apply finite_positive; [exact Hfin | apply Hv; reflexivity].
  - destruct (String.eqb_spec (Strings.TrimSpace (default "" (upd_date f))) "") as [E|E];
      [exact Hd|]. destruct Hdate as [?|?]; [contradiction | assumption].
  - destruct (String.eqb_spec (Strings.TrimSpace (default "" (upd_description f))) "");
      assumption.
Qed.

Lemma loadStore_sound env d st :
  (forall raw, stored d = Some raw -> Forall soundExpense (Expenses raw)) ->
  loadStore env d = inr st -> Forall soundExpense (Expenses st).
Proof.
  intros Hd Hl. apply loadStore_loaded in Hl as [_ Hl].
  apply loaded_stored in Hl as [[_ ->]|(raw & Hraw & ->)]; [constructor|].
  simpl. apply Hd. exact Hraw.
Qed.

Lemma dispatch_sound env c d :
  validClock env ->
  (forall st, stored d = Some st -> Forall soundExpense (Expenses st)) ->
  forall st, stored (disk (dispatch env c d)) = Some st -> Forall soundExpense (Expenses st).
Proof.
  intros Hclock Hd st Hst.
  destruct (err (dispatch env c d)) as [er|] eqn:Hok.
  { rewrite (dispatch_failure _ _ _ _ Hok) in Hst. apply Hd. exact Hst. }
  destruct c as [f|f|id|f|f|f|f]; simpl in *.
  - destruct (cmdAdd_success _ _ _ Hok)
      as (st0 & dt & k & e & st1 & Hl & Hp & He & Hst1 & Hs & _).
    destruct (cmdAdd_checks _ _ _ Hok) as [Hdesc Hamt].
    pose proof (loadStore_typed _ _ _ Hl) as Ht.
    assert (Hmut : Mutation st0 st1). { subst st1. apply MutAdd. subst e. reflexivity. }
    rewrite (proj1 (save_stored _ _ _ _ (Mutation_typed _ _ Ht Hmut) Hs)) in Hst.
    injection Hst as <-. pose proof (save_finite _ _ _ _ Hs) as Hfin.
    subst st1. simpl in *. apply Forall_app in Hfin as [_ Hfin]. inversion Hfin; subst.
    apply Forall_app. split; [eapply loadStore_sound; eassumption|].
    constructor; [|constructor]. split; [|split]; simpl.
    + apply finite_positive; assumption.
    + eapply parseDateOrToday_inr; eassumption.
    + exact Hdesc.
  - destruct (cmdUpdate_result _ _ _ Hok) as (st0 & i & e & Hl & _ & He & _ & Hs & _).
    destruct (cmdUpdate_checks _ _ _ Hok) as [Hv Hdate].
    pose proof (loadStore_sound _ _ _ Hd Hl) as Hsound.
    assert (Ht : typedStore (set_Expenses (<[i := updated env f e]> (Expenses st0)) st0)).
    { pose proof (loadStore_typed _ _ _ Hl) as [Hn Hes]. split; [exact Hn|]. simpl.
      apply Forall_insert; [exact Hes|]. apply (proj1 (Forall_lookup _ _) Hes i e He). }
    rewrite (proj1 (save_stored _ _ _ _ Ht Hs)) in Hst. injection Hst as <-.
    pose proof (save_finite _ _ _ _ Hs) as Hfin. simpl in *.
    apply Forall_insert; [exact Hsound|].
    apply updated_sound; [exact (proj1 (Forall_lookup _ _) Hsound i e He) | exact Hv | exact Hdate|].
    apply (proj1 (Forall_lookup _ _) Hfin i (updated env f e)).
    apply list_lookup_insert_eq. eapply lookup_lt_Some; exact He.
  - destruct (cmdDelete_success _ _ _ Hok) as (st0 & idx & e & st1 & _ & Hl & _ & Hi & _ & -> & Hs & _).
    pose proof (loadStore_sound _ _ _ Hd Hl) as Hsound.
    pose proof (Mutation_typed _ _ (loadStore_typed _ _ _ Hl) (MutDelete st0 idx e Hi)) as Ht.
    rewrite (proj1 (save_stored _ _ _ _ Ht Hs)) in Hst. injection Hst as <-. simpl.
    apply Forall_app. split; [apply Forall_take | apply Forall_drop]; exact Hsound.
  - apply Hd. revert Hst. unfold cmdList. destruct (loadStore env d); [auto|].
    destruct (_ && _); auto.
  - apply Hd. revert Hst. unfold cmdSummary. destruct (loadStore env d); [auto|].
    destruct (_ =? 0); [auto|]. destruct (_ || _); auto.
  - destruct (cmdBudget_success _ _ _ Hok)
      as [E|(st0 & m & mk & v & st1 & _ & Hv & Hl & Hm & -> & Hs & _)].
    + rewrite E in Hst. apply Hd. exact Hst.
    + pose proof (Mutation_typed _ _ (loadStore_typed _ _ _ Hl) (MutBudget st0 m mk v Hm Hv)) as Ht.
      rewrite (proj1 (save_stored _ _ _ _ Ht Hs)) in Hst. injection Hst as <-. simpl.
      eapply loadStore_sound; eassumption.
  - apply Hd. revert Hst. unfold cmdExport. destruct (loadStore env d); [auto|].
    destruct (_ && _); [auto|]. destruct (negb _); auto.
Qed.

(** X13: whatever commands are run, on hosts whose clocks show dates of
    the calendar, from a disk without a data file, every expense in the
    data file has an amount above zero, a date that parses and a
    description that is not empty. *)
Theorem stored_expenses_sound (cs : list (Env * Command)) (st : Store)
    (Hclocks : Forall (fun ec => validClock (fst ec)) cs)
    (Hstored : stored (runAll cs freshDisk) = Some st) :
  Forall soundExpense (Expenses st).
Proof.
  assert (H : forall cs d,
    Forall (fun ec => validClock (fst ec)) cs ->
    (forall st, stored d = Some st -> Forall soundExpense (Expenses st)) ->
    forall st, stored (runAll cs d) = Some st -> Forall soundExpense (Expenses st)).
  { clear. induction cs as [|[env c] cs IH]; intros d Hcs Hd; simpl; [exact Hd|].
    inversion Hcs; subst. apply IH; [assumption|]. apply dispatch_sound; assumption. }
  apply (H cs freshDisk Hclocks); [|exact Hstored]. intros st' Hst'. discriminate.
Qed.

Lemma stored_expenses_sound_witness :
  Forall soundExpense
    [{| ID := 1; Date := "2025-08-09"; Description := "Fuel"; Amount := 40%float;
        Category := "General"; CreatedAt := Sample.aug9; UpdatedAt := Sample.aug9 |}].
Proof.
  apply (stored_expenses_sound [(Sample.env, Add Sample.addFuel)]
           {| NextID := 2;
              Expenses := [{| ID := 1; Date := "2025-08-09"; Description := "Fuel";
                              Amount := 40%float; Category := "General";
                              CreatedAt := Sample.aug9; UpdatedAt := Sample.aug9 |}];
              Budgets := Some ∅ |}).
  - constructor; [exact validClock_sample | constructor].
  - reflexivity.
Defined.

(** ** Identifiers *)








(** ** budget: set, then read *)

Lemma ltb_zero_leb v : PrimFloat.ltb 0 v = true -> PrimFloat.leb 0 v = true.
Proof.
  rewrite ltb_spec, leb_spec. unfold SFltb, SFleb.
  change (Prim2SF 0) with (S754_zero false).
  destruct (Prim2SF v) as [s|s| |s m e]; simpl; try destruct s; simpl; congruence.
Qed.

Lemma normalized_loaded env d st : loadStore env d = inr st -> (NextID st =? 0) = false.
Proof.
  intros H. apply loadStore_inv in H as [_ [[_ ->]|(doc & raw & _ & _ & ->)]]; simpl.
  - reflexivity.
  - destruct (NextID raw =? 0) eqn:E; [reflexivity | exact E].
Qed.

(** X16: after [budget --set v] for a month and a year, with [v] above
    zero, a later [budget] for the same month and year, on a host that
    finds the home directory, prints that budget, the total of the
    expenses of the month and what is left of the budget, and writes
    nothing. *)
Theorem budget_set_then_read (env env' : Env) (d : Disk) (st : Store)
    (v : float) (mo y : Z)
    (Hload : loadStore env d = inr st) (Hwrite : write_ok env = true)
    (Hhome : home_ok env' = true)
    (Hmonth : 1 <= mo <= 12) (Hyear : y <> 0)
    (Hpos : PrimFloat.ltb 0 v = true) (Hfin : PrimFloat.is_finite v = true) :
  let mk := Fmt.pad0 4 y +:+ "-" +:+ Fmt.pad0 2 mo in
  let d' := disk (cmdBudget env {| bud_set := Some v; bud_month := Some mo;
                                   bud_year := Some y |} d) in
  let r := cmdBudget env' {| bud_set := None; bud_month := Some mo; bud_year := Some y |} d' in
  err r = None /\ disk r = d'
  /\ printed r = [OutBudget mk v;
                  OutSpent (monthTotal st mk) (PrimFloat.sub v (monthTotal st mk))].
Proof.
  intros mk d' r.
  set (fs := {| bud_set := Some v; bud_month := Some mo; bud_year := Some y |}) in *.
  pose proof (ltb_zero_leb _ Hpos) as Hge.
  destruct (cmdBudget_total env fs d st v mo Hload Hwrite eq_refl eq_refl Hmonth Hge Hfin)
    as [Hok Hp].
  destruct (cmdBudget_set env fs d v eq_refl Hge Hok) as (st0 & m & mk0 & Hl & Hm & Hp' & _ & Hs).
  rewrite Hload in Hl. injection Hl as <-.
  rewrite Hp in Hp'. injection Hp' as <-.
  simpl in Hs. destruct (Z.eqb_spec y 0) as [?|_]; [contradiction|].
  fold mk in Hs. fold d' in Hs.
  pose proof (loadStore_typed _ _ _ Hload) as Ht.
  pose proof (loaded_save _ _ _ _ (Mutation_typed _ _ Ht (MutBudget st m mk v Hm Hge)) Hs) as Hld.
  assert (Hl' : loadStore env' d' = inr (set_Budgets (Some (<[mk := v]> m)) st)).
  { apply loadStore_loaded. split; [exact Hhome|]. rewrite Hld. f_equal.
    unfold normalized. simpl. rewrite (normalized_loaded _ _ _ Hload).
    destruct st; reflexivity. }
  unfold r, cmdBudget. simpl.
  destruct (Z.eqb_spec mo 0) as [?|_]; [lia|].
  destruct (Z.eqb_spec y 0) as [?|_]; [contradiction|].
  destruct Hmonth as [H1 H2]. apply Z.ltb_ge in H1. apply Z.ltb_ge in H2.
  rewrite H1, H2. simpl. fold mk. rewrite Hl'.
  unfold budgetOf. simpl. rewrite lookup_insert_eq. simpl.
  rewrite (ltb_zero_not_leb _ Hpos).
  split; [reflexivity|]. split; [reflexivity|].
  rewrite <- (sumForMonth_monthTotal st mk). reflexivity.
Qed.

Lemma budget_set_then_read_witness :
  printed (cmdBudget Sample.env {| bud_set := None; bud_month := Some 8; bud_year := Some 2025 |}
             (disk (cmdBudget Sample.env Sample.budgetFifty Sample.disk)))
  = [OutBudget "2025-08" 50; OutSpent 20 30].
Proof.
  destruct (budget_set_then_read Sample.env Sample.env Sample.disk Sample.store 50%float 8 2025
              eq_refl eq_refl eq_refl
              (conj (Zle_bool_imp_le 1 8 eq_refl) (Zle_bool_imp_le 8 12 eq_refl)))
    as (_ & _ & Hp); [discriminate | reflexivity | reflexivity |].
  exact Hp.
Defined.

(** ** The month of a query *)

(** X17: a month below 0 or above 12 is refused by [cmdList],
    [cmdSummary] and [cmdExport] once the store has loaded, and by
    [cmdBudget] before it loads it, with the same validation error. *)
Theorem month_out_of_range (env : Env) (d : Disk) (st : Store) (m : Z)
    (Hload : loadStore env d = inr st) (Hm : m < 0 \/ 12 < m) :
  (forall f, list_month f = Some m ->
     err (cmdList env f d) = Some (ValidationError "--month must be 1-12"))
  /\ (forall f, sum_month f = Some m ->
        err (cmdSummary env f d) = Some (ValidationError "--month must be 1-12"))
  /\ (forall f, exp_month f = Some m ->
        err (cmdExport env f d) = Some (ValidationError "--month must be 1-12"))
  /\ (forall f d', bud_month f = Some m ->
        cmdBudget env f d' = fail (ValidationError "--month must be 1-12") None d').
Proof.
  assert (H0 : (m =? 0) = false) by (apply Z.eqb_neq; lia).
  assert (Hr : (m <? 1) || (12 <? m) = true).
  { apply orb_true_iff. destruct Hm; [left; apply Z.ltb_lt | right; apply Z.ltb_lt]; lia. }
  split; [|split; [|split]].
  - intros f Hf. unfold cmdList. rewrite Hload, Hf. simpl. rewrite H0, Hr. reflexivity.
  - intros f Hf. unfold cmdSummary. rewrite Hload, Hf. simpl. rewrite H0, Hr. reflexivity.
  - intros f Hf. unfold cmdExport. rewrite Hload, Hf. simpl. rewrite H0, Hr. reflexivity.
  - intros f d' Hf. unfold cmdBudget. rewrite Hf. simpl. rewrite H0, Hr. reflexivity.
Qed.

Lemma month_out_of_range_witness :
  err (cmdList Sample.env {| list_category := None; list_month := Some 13;
                             list_year := None |} Sample.disk)
  = Some (ValidationError "--month must be 1-12").
Proof.
  exact (proj1 (month_out_of_range Sample.env Sample.disk Sample.store 13 eq_refl
                  (or_intror (proj2 (Zlt_is_lt_bool 12 13) eq_refl)))
           {| list_category := None; list_month := Some 13; list_year := None |} eq_refl).
Defined.

(** ** add, in full *)




(** ** list and summary *)

Lemma filter_all (l : list Expense) : List.filter (keeps 0 0 "") l = l.
Proof. induction l as [|x l IH]; simpl; [reflexivity | f_equal; exact IH]. Qed.

(** X20: [cmdList] without flags prints a row for every expense of the
    store, none left out whatever its date or category, in the order of
    date and ID. *)
Theorem cmdList_all (env : Env) (d : Disk) (st : Store)
    (Hload : loadStore env d = inr st) :
  let r := cmdList env {| list_category := None; list_month := None; list_year := None |} d in
  err r = None
  /\ printed r = printTable (filterExpenses st 0 0 "")
  /\ Permutation (filterExpenses st 0 0 "") (Expenses st)
  /\ StronglySorted dateThenID (filterExpenses st 0 0 "")
  /\ length (printed r) = (2 + length (Expenses st))%nat.
Proof.
  intros r. assert (Hr : r = {| printed := printTable (filterExpenses st 0 0 "");
                                err := None; mem := Some st; disk := d |}).
  { unfold r, cmdList. simpl. rewrite Hload. reflexivity. }
  assert (Hperm : Permutation (filterExpenses st 0 0 "") (Expenses st)).
  { unfold filterExpenses. rewrite filter_all. apply sortSlice_perm. }
  rewrite Hr. simpl. repeat split; try assumption.
  - apply sortSlice_sorted.
  - rewrite length_map. f_equal. f_equal. apply Permutation_length. exact Hperm.
Qed.

Lemma cmdList_all_witness :
  printed (cmdList Sample.env {| list_category := None; list_month := None;
                                 list_year := None |} Sample.disk)
  = [OutTableHead; OutTableRule; OutTableRow 1 "2025-08-09" "Lunch" "Food" 20].
Proof.
  destruct (cmdList_all Sample.env Sample.disk Sample.store eq_refl) as (_ & Hp & _).
  exact Hp.
Defined.



(** X22: for a month with a budget above zero in the year the clock
    shows, the total [cmdSummary] reports for the month, with no
    category, is the amount [cmdBudget] reports as spent: the sum of
    the amounts of the expenses of that month-key. *)
Theorem summary_matches_budget (env : Env) (d : Disk) (st : Store) (m : Z) (b : float)
    (Hload : loadStore env d = inr st) (Hmonth : 1 <= m <= 12)
    (Hbudget : budgetOf st (Fmt.pad0 4 (Time.Year (clock env 0)) +:+ "-" +:+ Fmt.pad0 2 m)
               = Some b)
    (Hpos : PrimFloat.ltb 0 b = true) :
  let mk := Fmt.pad0 4 (Time.Year (clock env 0)) +:+ "-" +:+ Fmt.pad0 2 m in
  printed (cmdSummary env {| sum_month := Some m; sum_category := None |} d)
    = [OutMonthTotal (monthName m) (monthTotal st mk)]
  /\ printed (cmdBudget env {| bud_set := None; bud_month := Some m; bud_year := None |} d)
     = [OutBudget mk b; OutSpent (monthTotal st mk) (PrimFloat.sub b (monthTotal st mk))].
Proof.
  intros mk. destruct Hmonth as [H1 H2].
  assert (H0 : (m =? 0) = false) by (apply Z.eqb_neq; lia).
  apply Z.ltb_ge in H1. apply Z.ltb_ge in H2. split.
  - unfold cmdSummary. rewrite Hload. simpl. rewrite H0, H1, H2. simpl. fold mk.
    rewrite sumForMonth_monthTotal. reflexivity.
  - unfold cmdBudget. simpl. rewrite H0, H1, H2. simpl. fold mk. rewrite Hload.
    fold mk in Hbudget. rewrite Hbudget, (ltb_zero_not_leb _ Hpos).
    rewrite sumForMonth_monthTotal. reflexivity.
Qed.

Lemma summary_matches_budget_witness :
  printed (cmdSummary Sample.env {| sum_month := Some 8; sum_category := None |} Sample.disk)
    = [OutMonthTotal "August" 20]
  /\ printed (cmdBudget Sample.env {| bud_set := None; bud_month := Some 8; bud_year := None |}
                Sample.disk)
     = [OutBudget "2025-08" 50; OutSpent 20 30].
Proof.
  exact (summary_matches_budget Sample.env Sample.disk Sample.store 8 50%float eq_refl
           (conj (Zle_bool_imp_le 1 8 eq_refl) (Zle_bool_imp_le 8 12 eq_refl))
           eq_refl eq_refl).
Defined.
